(** * gpumon-go: a shallow embedding of the GPU metrics exporter

    The repository holds two programs that share almost all of their
    code: [main.go] (with the CloudWatch sink) and a baseline variant
    (the second source file) that only prints JSON.  The NVML library
    and the CloudWatch client are external collaborators: they are
    modelled as oracles whose answers may depend on everything that
    happened before the call.  Every call into them, every line
    printed, every sleep and every [log.Fatalf] is recorded in a
    chronological trace, so that statements about the order of effects
    can be made on the trace. *)

From Stdlib Require Import ZArith NArith List String Ascii Bool Lia.
From Stdlib Require Import Floats.SpecFloat.
From Stdlib Require Import Numbers.DecimalString Numbers.DecimalPos Numbers.DecimalN.
Import ListNotations.

Local Open Scope string_scope.
Local Open Scope Z_scope.
Local Open Scope list_scope.

(** ** Machine integers *)

(** Go's [int] is 64 bits wide on the supported platforms; arithmetic
    wraps around silently. *)
Definition int_wrap (z : Z) : Z := (z + 2 ^ 63) mod 2 ^ 64 - 2 ^ 63.

Definition int_sub (a b : Z) : Z := int_wrap (a - b).

Definition in_int (z : Z) : Prop := - 2 ^ 63 <= z < 2 ^ 63.

(** ** Floating point: IEEE 754 binary32 and binary64 *)

Definition float32 := spec_float.
Definition float64 := spec_float.

Definition f32_of_Z (z : Z) : float32 := binary_normalize 24 128 z 0 false.
Definition f64_of_Z (z : Z) : float64 := binary_normalize 53 1024 z 0 false.

(** [float32(x)] for an unsigned integer [x]: round to nearest, ties to even. *)
Definition f32_of_N (n : N) : float32 := f32_of_Z (Z.of_N n).
Definition f64_of_N (n : N) : float64 := f64_of_Z (Z.of_N n).

Definition f32_div (x y : float32) : float32 := SFdiv 24 128 x y.

(** [float64(x)] for a [float32] value [x] (exact). *)
Definition f64_of_f32 (x : float32) : float64 :=
  match x with
  | S754_finite s m e => binary_normalize 53 1024 (cond_Zopp s (Zpos m)) e s
  | _ => x
  end.

Definition f32_zero : float32 := S754_zero false.

Definition is_finite (x : spec_float) : bool :=
  match x with
  | S754_zero _ | S754_finite _ _ _ => true
  | S754_infinity _ | S754_nan => false
  end.

(** ** Formatting verbs of package fmt *)

(** [%d] of an unsigned integer, and of a signed one. *)
Definition fmt_d (n : N) : string := NilZero.string_of_uint (N.to_uint n).
Definition fmt_d_int (z : Z) : string := NilZero.string_of_int (Z.to_int z).

Definition digit_char (d : Z) : ascii :=
  ascii_of_N (48 + Z.to_N (d mod 10)).

(** The last [p] decimal digits of [n], most significant first. *)
Fixpoint frac_digits (p : nat) (n : Z) : string :=
  match p with
  | O => EmptyString
  | S p' => (frac_digits p' (n / 10) ++ String (digit_char n) EmptyString)%string
  end.

(** [|m * 2^e| * 10^p] rounded to the nearest integer, ties to even: the
    exact decimal value of a finite float cut to [p] places, as
    strconv does it. *)
Definition scaled_round (p : nat) (m : positive) (e : Z) : Z :=
  let num := Zpos m * 10 ^ Z.of_nat p * 2 ^ Z.max e 0 in
  let den := 2 ^ Z.max (- e) 0 in
  let q := num / den in
  let r := num mod den in
  match 2 * r ?= den with
  | Lt => q
  | Gt => q + 1
  | Eq => if Z.even q then q else q + 1
  end.

Definition fmt_fixed (p : nat) (neg : bool) (n : Z) : string :=
  ((if neg then "-" else "")
   ++ fmt_d (Z.to_N (n / 10 ^ Z.of_nat p))
   ++ match p with O => "" | S _ => "." ++ frac_digits p n end)%string.

(** [%.pf] of a float. *)
Definition fmt_f (p : nat) (x : spec_float) : string :=
  match x with
  | S754_nan => "NaN"
  | S754_infinity false => "+Inf"
  | S754_infinity true => "-Inf"
  | S754_zero s => fmt_fixed p s 0
  | S754_finite s m e => fmt_fixed p s (scaled_round p m e)
  end.

(** ** The NVML library boundary *)

(** [nvml.Return] is a status code; [nvml.SUCCESS] is 0. *)
Definition nvml_Return := Z.
Definition SUCCESS : nvml_Return := 0.

Definition is_success (ret : nvml_Return) : bool := ret =? SUCCESS.

(** [nvml.TEMPERATURE_GPU], the only sensor the program asks for. *)
Definition TEMPERATURE_GPU : Z := 0.

(** [nvml.Device] is an interface value: [None] is the nil interface (the
    zero value), [Some h] a handle the library gave out. *)
Definition nvml_Handle := N.
Definition nvml_Device := option nvml_Handle.

Record nvml_Memory := { Total : N; Free : N; Used : N }.
Record nvml_Utilization := { Gpu : N; Memory : N }.

(** A Go [error]: [None] is nil, [Some msg] an error whose [Error()] is [msg]. *)
Definition error := option string.

Inductive nvml_call :=
| DeviceGetCount
| DeviceGetHandleByIndex (index : Z)
| GetUUID (h : nvml_Handle)
| HandleGetTemperature (h : nvml_Handle) (sensor : Z)
| HandleGetPowerUsage (h : nvml_Handle)
| HandleGetMemoryInfo (h : nvml_Handle)
| HandleGetUtilizationRates (h : nvml_Handle).

(** The four telemetry reads, as opposed to device discovery. *)
Definition is_read (c : nvml_call) : bool :=
  match c with
  | HandleGetTemperature _ _ | HandleGetPowerUsage _
  | HandleGetMemoryInfo _ | HandleGetUtilizationRates _ => true
  | _ => false
  end.

(** ** JSON values and CloudWatch inputs *)

Inductive json_number :=
| JUint (n : N)
| JFloat32 (f : float32).

(** A JSON object as encoding/json writes it: members in order. The
    decimal text of each number is left to the encoder. *)
Definition json_object := list (string * json_number).

Inductive StandardUnit :=
| StandardUnitPercent
| StandardUnitMegabytes
| StandardUnitNone.

Record Dimension := { Name : string; Value : string }.

Record MetricDatum := {
  MetricName : string;
  Dimensions : list Dimension;
  Unit : StandardUnit;
  StorageResolution : Z;
  DatumValue : float64
}.

Record PutMetricDataInput := {
  MetricData : list MetricDatum;
  Namespace : string
}.

(** ** Traces and the effect monad *)

Inductive event :=
| Nvml (c : nvml_call) (ret : nvml_Return)
| LogFatalf (msg : string)
| Println (j : json_object)
| Sleep (nanoseconds : Z)
| PutMetricData (input : PutMetricDataInput) (err : error).

Definition trace := list event.

(** The answers of the NVML library; each may depend on the trace so far. *)
Record NvmlLib := {
  nvml_DeviceGetCount : trace -> Z * nvml_Return;
  nvml_DeviceGetHandleByIndex : trace -> Z -> nvml_Device * nvml_Return;
  nvml_GetUUID : trace -> nvml_Handle -> string * nvml_Return;
  nvml_GetTemperature : trace -> nvml_Handle -> Z -> N * nvml_Return;
  nvml_GetPowerUsage : trace -> nvml_Handle -> N * nvml_Return;
  nvml_GetMemoryInfo : trace -> nvml_Handle -> nvml_Memory * nvml_Return;
  nvml_GetUtilizationRates : trace -> nvml_Handle -> nvml_Utilization * nvml_Return;
  nvml_ErrorString : nvml_Return -> string
}.

(** How a computation ends: it returns, the process exits ([os.Exit],
    reached through [log.Fatalf]), or it panics (a method call on a nil
    interface). *)
Inductive outcome (A : Type) :=
| Returned (a : A)
| Exited (code : Z)
| Panicked.
Arguments Returned {A} a.
Arguments Exited {A} code.
Arguments Panicked {A}.

Definition M (A : Type) : Type := trace -> outcome A * trace.

Definition pure {A} (a : A) : M A := fun t => (Returned a, t).

Definition bind {A B} (m : M A) (k : A -> M B) : M B :=
  fun t =>
    match m t with
    | (Returned a, t') => k a t'
    | (Exited c, t') => (Exited c, t')
    | (Panicked, t') => (Panicked, t')
    end.

Declare Scope go_scope.
Delimit Scope go_scope with go.
Notation "x <- m ;; k" := (bind m (fun x => k))
  (at level 61, m at next level, right associativity) : go_scope.
Notation "' p <- m ;; k" := (bind m (fun x => let 'p := x in k))
  (at level 61, p pattern, m at next level, right associativity) : go_scope.
Notation "m ;; k" := (bind m (fun _ => k))
  (at level 61, right associativity) : go_scope.

Definition emit (e : event) : M unit := fun t => (Returned tt, t ++ [e]).

Definition panic {A} : M A := fun t => (Panicked, t).

(** [log.Fatalf]: write the message, then [os.Exit(1)]. *)
Definition log_Fatalf {A} (msg : string) : M A :=
  fun t => (Exited 1, t ++ [LogFatalf msg]).

Definition fmt_Println (j : json_object) : M unit := emit (Println j).

Definition Second : Z := 1000000000.
Definition time_Sleep (d : Z) : M unit := emit (Sleep d).

Local Open Scope go_scope.

Section Device.

Variable lib : NvmlLib.

Definition call_DeviceGetCount : M (Z * nvml_Return) :=
  fun t =>
    let r := nvml_DeviceGetCount lib t in
    (Returned r, t ++ [Nvml DeviceGetCount (snd r)]).

Definition call_DeviceGetHandleByIndex (index : Z) : M (nvml_Device * nvml_Return) :=
  fun t =>
    let r := nvml_DeviceGetHandleByIndex lib t index in
    (Returned r, t ++ [Nvml (DeviceGetHandleByIndex index) (snd r)]).

(** A method call on the interface value: nil panics. *)
Definition call_method {A} (c : nvml_Handle -> nvml_call)
    (f : NvmlLib -> trace -> nvml_Handle -> A * nvml_Return)
    (d : nvml_Device) : M (A * nvml_Return) :=
  match d with
  | None => panic
  | Some h =>
      fun t =>
        let r := f lib t h in
        (Returned r, t ++ [Nvml (c h) (snd r)])
  end.

(** *** The device accessor *)

Record Device := { Index : Z; UUID : string; Handle : nvml_Device }.

Definition Device_zero : Device := {| Index := 0; UUID := ""; Handle := None |}.

Definition GetDevice (index : Z) : M (Device * error) :=
  '(count, ret) <- call_DeviceGetCount ;;
  (if negb (is_success ret)
   then log_Fatalf ("Unable to get device count: " ++ nvml_ErrorString lib ret)%string
   else pure tt) ;;
  (if count <=? int_sub index 1
   then log_Fatalf "Device index out of range"
   else pure tt) ;;
  '(device, ret) <- call_DeviceGetHandleByIndex index ;;
  if negb (is_success ret)
  then pure (Device_zero,
            Some ("unable to get device at index " ++ fmt_d_int index ++ ": "
                  ++ nvml_ErrorString lib ret)%string)
  else
    '(uuid, ret) <- call_method GetUUID nvml_GetUUID device ;;
    if negb (is_success ret)
    then pure (Device_zero,
              Some ("unable to get uuid of device at index " ++ fmt_d_int index ++ ": "
                    ++ nvml_ErrorString lib ret)%string)
    else pure ({| Index := index; UUID := uuid; Handle := device |}, None).

Definition deviceHandleErrorString (d : Device) (ret : nvml_Return) : error :=
  Some (nvml_ErrorString lib ret).

Definition GetTemperature (d : Device) : M (N * error) :=
  '(temp, ret) <- call_method (fun h => HandleGetTemperature h TEMPERATURE_GPU)
                    (fun l t h => nvml_GetTemperature l t h TEMPERATURE_GPU)
                    (Handle d) ;;
  if negb (is_success ret)
  then pure (0%N, deviceHandleErrorString d ret)
  else pure (temp, None).

Definition GetPower (d : Device) : M (float32 * error) :=
  '(power, ret) <- call_method HandleGetPowerUsage nvml_GetPowerUsage (Handle d) ;;
  if negb (is_success ret)
  then pure (f32_zero, deviceHandleErrorString d ret)
  else
    let actual := f32_div (f32_of_N power) (f32_of_Z 1000) in
    pure (actual, None).

Definition GetUtilization (d : Device) : M (N * float32 * float32 * error) :=
  '(memory, ret) <- call_method HandleGetMemoryInfo nvml_GetMemoryInfo (Handle d) ;;
  if negb (is_success ret)
  then pure (0%N, f32_zero, f32_zero, deviceHandleErrorString d ret)
  else
    let total := f32_div (f32_of_N (Total memory)) (f32_of_Z (Z.shiftl 1 30)) in
    let used := f32_div (f32_of_N (Used memory)) (f32_of_Z (Z.shiftl 1 30)) in
    '(util, ret) <- call_method HandleGetUtilizationRates nvml_GetUtilizationRates
                      (Handle d) ;;
    if negb (is_success ret)
    then pure (0%N, f32_zero, f32_zero, deviceHandleErrorString d ret)
    else pure (Gpu util, total, used, None).

(** *** The metrics record *)

Record Metrics := {
  Temperature : N;
  Power : float32;
  GpuUsage : N;
  MemoryTotal : float32;
  MemoryUsed : float32
}.

Definition Metrics_zero : Metrics :=
  {| Temperature := 0; Power := f32_zero; GpuUsage := 0;
     MemoryTotal := f32_zero; MemoryUsed := f32_zero |}.

Definition GetMetrics (d : Device) : M (Metrics * error) :=
  '(temp, err) <- GetTemperature d ;;
  match err with
  | Some _ => pure (Metrics_zero, err)
  | None =>
      '(power, err) <- GetPower d ;;
      match err with
      | Some _ => pure (Metrics_zero, err)
      | None =>
          '(gpu, totalMemory, usedMemory, err) <- GetUtilization d ;;
          match err with
          | Some _ => pure (Metrics_zero, err)
          | None =>
              pure ({| Temperature := temp; Power := power; GpuUsage := gpu;
                       MemoryTotal := totalMemory; MemoryUsed := usedMemory |}, None)
          end
      end
  end.

End Device.

(** [Metrics.String]: [fmt.Sprintf("%d,%.2f,%d,%.1f,%.2f", ...)]. *)
Definition Metrics_String (m : Metrics) : string :=
  (fmt_d (Temperature m) ++ "," ++ fmt_f 2 (Power m) ++ "," ++ fmt_d (GpuUsage m)
   ++ "," ++ fmt_f 1 (MemoryTotal m) ++ "," ++ fmt_f 2 (MemoryUsed m))%string.

(** ** JSON serialization *)

(** The [json:"..."] tags of the fields of [Metrics], in declaration
    order.  The two programs of the repository differ in the last one. *)
Record MetricsTags := {
  tag_Temperature : string;
  tag_Power : string;
  tag_GpuUsage : string;
  tag_MemoryTotal : string;
  tag_MemoryUsed : string
}.

(** The tags in [main.go]. *)
Definition main_go_tags : MetricsTags :=
  {| tag_Temperature := "temperature";
     tag_Power := "power";
     tag_GpuUsage := "gpu_usage";
     tag_MemoryTotal := "memory_total";
     tag_MemoryUsed := "memory_used" |}.

(** The tags in the baseline program (the second source file). *)
Definition baseline_tags : MetricsTags :=
  {| tag_Temperature := "temperature";
     tag_Power := "power";
     tag_GpuUsage := "gpu_usage";
     tag_MemoryTotal := "memory_total";
     tag_MemoryUsed := "memory_available" |}.

(** encoding/json refuses NaN and the infinities. *)
Definition json_float_error (f : float32) : error :=
  if is_finite f then None
  else Some ("json: unsupported value: " ++ fmt_f 0 f)%string.

(** [json.Marshal] of a [Metrics] value: one member per field, named by
    its tag, in declaration order; the first unsupported float aborts
    the encoding. *)
Definition json_Marshal (tags : MetricsTags) (m : Metrics) : json_object * error :=
  match json_float_error (Power m) with
  | Some e => ([], Some e)
  | None =>
  match json_float_error (MemoryTotal m) with
  | Some e => ([], Some e)
  | None =>
  match json_float_error (MemoryUsed m) with
  | Some e => ([], Some e)
  | None =>
      ([ (tag_Temperature tags, JUint (Temperature m));
         (tag_Power tags, JFloat32 (Power m));
         (tag_GpuUsage tags, JUint (GpuUsage m));
         (tag_MemoryTotal tags, JFloat32 (MemoryTotal m));
         (tag_MemoryUsed tags, JFloat32 (MemoryUsed m)) ], None)
  end end end.

(** ** The sampling loop *)

Section Loop.

Variable lib : NvmlLib.
Variable tags : MetricsTags.

(** One pass through the body of the [for] statement of [main]. *)
Definition loop_body (device : Device) : M unit :=
  '(metrics, err) <- GetMetrics lib device ;;
  match err with
  | Some e => log_Fatalf ("Unable to get metrics: " ++ e)%string
  | None =>
      let '(jsonMetrics, err) := json_Marshal tags metrics in
      match err with
      | Some e => log_Fatalf ("Unable to marshal metrics to JSON: " ++ e)%string
      | None =>
          fmt_Println jsonMetrics ;;
          time_Sleep (Second * 5)
      end
  end.

(** The first [n] passes of [for { body }].  The statement has no exit
    of its own: [Returned tt] after [n] passes means that the loop is
    about to start pass [n + 1]. *)
Fixpoint sampling_loop (n : nat) (device : Device) : M unit :=
  match n with
  | O => pure tt
  | S n' => loop_body device ;; sampling_loop n' device
  end.

End Loop.

(** ** The CloudWatch sink ([main.go] only) *)

(** The answer of [client.PutMetricData]; the context and the client are
    part of the oracle. *)
Definition Cloudwatch := trace -> PutMetricDataInput -> error.

Definition call_PutMetricData (client : Cloudwatch) (input : PutMetricDataInput)
  : M error :=
  fun t =>
    let err := client t input in
    (Returned err, t ++ [PutMetricData input err]).

Definition PublishCloudwatchMetrics (m : Metrics) (client : Cloudwatch)
    (instanceID instanceType : string) (resolution : Z) (namespace : string)
  : M error :=
  let dimensions :=
    [ {| Name := "InstancesId"; Value := instanceID |};
      {| Name := "InstanceType"; Value := instanceType |} ] in
  let metricData :=
    [ {| MetricName := "GPU Usage";
         Dimensions := dimensions;
         Unit := StandardUnitPercent;
         StorageResolution := resolution;
         DatumValue := f64_of_N (GpuUsage m) |};
      {| MetricName := "Memory Used";
         Dimensions := dimensions;
         Unit := StandardUnitMegabytes;
         StorageResolution := resolution;
         DatumValue := f64_of_f32 (MemoryUsed m) |};
      {| MetricName := "Temperature (C)";
         Dimensions := dimensions;
         Unit := StandardUnitNone;
         StorageResolution := resolution;
         DatumValue := f64_of_N (Temperature m) |};
      {| MetricName := "Power (W)";
         Dimensions := dimensions;
         Unit := StandardUnitNone;
         StorageResolution := resolution;
         DatumValue := f64_of_f32 (Power m) |} ] in
  let input := {| MetricData := metricData; Namespace := namespace |} in
  err <- call_PutMetricData client input ;;
  match err with
  | Some e => pure (Some ("Unable to publish metrics to CloudWatch: " ++ e)%string)
  | None => pure None
  end.

(** ** Sample libraries used to run the model *)

(** A machine with one GPU that always answers the same readings. *)
Definition steady_lib : NvmlLib :=
  {| nvml_DeviceGetCount := fun _ => (1, SUCCESS);
     nvml_DeviceGetHandleByIndex := fun _ i =>
       if i =? 0 then (Some 7%N, SUCCESS) else (None, 2);
     nvml_GetUUID := fun _ _ => ("GPU-0", SUCCESS);
     nvml_GetTemperature := fun _ _ _ => (61%N, SUCCESS);
     nvml_GetPowerUsage := fun _ _ => (128000%N, SUCCESS);
     nvml_GetMemoryInfo := fun _ _ =>
       ({| Total := 17179869184; Free := 12884901888; Used := 4294967296 |}, SUCCESS);
     nvml_GetUtilizationRates := fun _ _ => ({| Gpu := 93; Memory := 40 |}, SUCCESS);
     nvml_ErrorString := fun r => if r =? 2 then "Invalid Argument" else "Unknown Error" |}.

(** A machine on which the library finds no GPU at all. *)
Definition no_gpu_lib : NvmlLib :=
  {| nvml_DeviceGetCount := fun _ => (0, SUCCESS);
     nvml_DeviceGetHandleByIndex := fun _ _ => (None, 2);
     nvml_GetUUID := fun _ _ => ("", 2);
     nvml_GetTemperature := fun _ _ _ => (0%N, 2);
     nvml_GetPowerUsage := fun _ _ => (0%N, 2);
     nvml_GetMemoryInfo := fun _ _ => ({| Total := 0; Free := 0; Used := 0 |}, 2);
     nvml_GetUtilizationRates := fun _ _ => ({| Gpu := 0; Memory := 0 |}, 2);
     nvml_ErrorString := fun r => if r =? 2 then "Invalid Argument" else "Unknown Error" |}.

(** A machine whose GPU answers every read but the last: the
    utilization read fails with status 999. *)
Definition util_fails_lib : NvmlLib :=
  {| nvml_DeviceGetCount := nvml_DeviceGetCount steady_lib;
     nvml_DeviceGetHandleByIndex := nvml_DeviceGetHandleByIndex steady_lib;
     nvml_GetUUID := nvml_GetUUID steady_lib;
     nvml_GetTemperature := nvml_GetTemperature steady_lib;
     nvml_GetPowerUsage := nvml_GetPowerUsage steady_lib;
     nvml_GetMemoryInfo := nvml_GetMemoryInfo steady_lib;
     nvml_GetUtilizationRates := fun _ _ => ({| Gpu := 0; Memory := 0 |}, 999);
     nvml_ErrorString := nvml_ErrorString steady_lib |}.

(** The device that [GetDevice 0] yields on the steady machine. *)
Definition steady_device : Device :=
  {| Index := 0; UUID := "GPU-0"; Handle := Some 7%N |}.

(** ** Reading a rendered record back *)

(** [strings.Split]-like cut of a string at every occurrence of [c]. *)
Fixpoint split_on (c : ascii) (s : string) : list string :=
  match s with
  | EmptyString => [EmptyString]
  | String a s' =>
      if Ascii.eqb a c then EmptyString :: split_on c s'
      else match split_on c s' with
           | [] => [String a EmptyString]
           | x :: xs => String a x :: xs
           end
  end.

Definition is_digit (c : ascii) : bool :=
  ((48 <=? N_of_ascii c) && (N_of_ascii c <=? 57))%N.

Fixpoint all_digits (s : string) : bool :=
  match s with
  | EmptyString => true
  | String c s' => is_digit c && all_digits s'
  end.

Fixpoint has_char (c : ascii) (s : string) : bool :=
  match s with
  | EmptyString => false
  | String a s' => Ascii.eqb a c || has_char c s'
  end.

Definition strip_sign (s : string) : string :=
  match s with
  | String a s' => if Ascii.eqb a "-" then s' else s
  | EmptyString => s
  end.

(** The number of decimal places of a fixed-point numeral: an optional
    minus sign, at least one digit, a point, and then only digits. *)
Definition fixed_point_places (s : string) : option nat :=
  match split_on "." (strip_sign s) with
  | [ip; fp] =>
      if negb (String.eqb ip "") && all_digits ip && all_digits fp
      then Some (String.length fp)
      else None
  | _ => None
  end.

(** What [%.pf] makes of [x]: a numeral with exactly [p] decimal places
    when [x] is a number, and the spelling of package fmt when [x] is
    an infinity or not a number. *)
Definition rendered_places (p : nat) (x : spec_float) : Prop :=
  match x with
  | S754_nan => fmt_f p x = "NaN"
  | S754_infinity s => fmt_f p x = if s then "-Inf" else "+Inf"
  | _ => fixed_point_places (fmt_f p x) = Some p
  end.

(** A telemetry read that came back with a status other than [SUCCESS]. *)
Definition failed_read (e : event) : bool :=
  match e with
  | Nvml c ret => is_read c && negb (is_success ret)
  | _ => false
  end.

(** The events of one successful sample of the device behind [h]. *)
Definition sample_events (h : nvml_Handle) : trace :=
  [ Nvml (HandleGetTemperature h TEMPERATURE_GPU) SUCCESS;
    Nvml (HandleGetPowerUsage h) SUCCESS;
    Nvml (HandleGetMemoryInfo h) SUCCESS;
    Nvml (HandleGetUtilizationRates h) SUCCESS ].

(** The record that a sample of the steady machine yields: 61 degrees,
    128.0 watts, 93 percent, 16.0 and 4.0 gigabytes. *)
Definition steady_metrics : Metrics :=
  {| Temperature := 61; Power := f32_of_Z 128; GpuUsage := 93;
     MemoryTotal := f32_of_Z 16; MemoryUsed := f32_of_Z 4 |}.

(** Normal operation of the loop: every read of the device behind [h]
    succeeds, whenever it is made ... *)
Definition reads_succeed (lib : NvmlLib) (h : nvml_Handle) : Prop :=
  forall t,
    snd (nvml_GetTemperature lib t h TEMPERATURE_GPU) = SUCCESS
    /\ snd (nvml_GetPowerUsage lib t h) = SUCCESS
    /\ snd (nvml_GetMemoryInfo lib t h) = SUCCESS
    /\ snd (nvml_GetUtilizationRates lib t h) = SUCCESS.

(** ... and every record that is sampled can be serialized. *)
Definition serialization_succeeds (lib : NvmlLib) (tags : MetricsTags) (d : Device)
  : Prop :=
  forall t m t',
    GetMetrics lib d t = (Returned (m, None), t') ->
    snd (json_Marshal tags m) = None.

(** What one pass of the loop leaves in the trace when it emits [j]. *)
Definition pass_events (h : nvml_Handle) (j : json_object) : trace :=
  sample_events h ++ [Println j; Sleep (Second * 5)].

(** A float that is a number and whose magnitude is below [2^K]: zero,
    or a mantissa and an exponent whose bit length and exponent add up
    to at most [K]. *)
Definition float_bound (K : Z) (x : spec_float) : Prop :=
  match x with
  | S754_zero _ => True
  | S754_finite _ m e => Zdigits2 (Zpos m) + e <= K
  | _ => False
  end.

(** The readings are values of their Go types: the power is a
    [uint32], the memory sizes are [uint64]. *)
Definition readings_in_range (lib : NvmlLib) (h : nvml_Handle) : Prop :=
  forall t,
    (fst (nvml_GetPowerUsage lib t h) < 2 ^ 32)%N
    /\ (Total (fst (nvml_GetMemoryInfo lib t h)) < 2 ^ 64)%N
    /\ (Used (fst (nvml_GetMemoryInfo lib t h)) < 2 ^ 64)%N.

(** ** The program: [main] *)

(** What [main] does around the loop.  The library is initialized
    before the first device call and, by the deferred call, shut down
    when [main] unwinds; both answer with a status.  [host_lib] is the
    library once [nvml.Init] has succeeded; the answer of
    [nvml.Shutdown] may depend on everything the library was asked.
    The goroutine that turns a termination signal into [os.Exit(1)] is
    left out: it runs beside [main] and shares nothing with it. *)
Record Host := {
  host_Init : nvml_Return;
  host_lib : NvmlLib;
  host_Shutdown : trace -> nvml_Return
}.

Inductive main_event :=
| LoadDefaultConfig (err : error)
| NvmlInit (ret : nvml_Return)
| NvmlShutdown (ret : nvml_Return)
| Core (e : event).

(** How a run of [main] stands after the passes it was given: still in
    the loop, exited through [os.Exit], or crashed by a panic that
    reached the top of the goroutine. *)
Inductive main_outcome :=
| StillSampling
| ProcessExit (code : Z)
| Crashed.

(** The statements of [main] between the deferred call and the end:
    [GetDevice(0)], then the loop (its first [n] passes). *)
Definition main_body (lib : NvmlLib) (tags : MetricsTags) (n : nat) : M unit :=
  '(device, err) <- GetDevice lib 0 ;;
  match err with
  | Some e => log_Fatalf ("Unable to get device: " ++ e)%string
  | None => sampling_loop lib tags n device
  end.

(** The deferred function: it runs when [main] unwinds, which only a
    panic brings about; [os.Exit] does not run deferred functions and
    the loop has no exit.  A failing shutdown is fatal in its turn. *)
Definition deferred_Shutdown (host : Host) (t : trace) : main_outcome * list main_event :=
  let ret := host_Shutdown host t in
  if negb (is_success ret)
  then (ProcessExit 1,
        [ NvmlShutdown ret;
          Core (LogFatalf ("Unable to shutdown NVML: "
                           ++ nvml_ErrorString (host_lib host) ret)%string) ])
  else (Crashed, [NvmlShutdown ret]).

(** [main] from [nvml.Init] on, for the first [n] passes of its loop. *)
Definition main (host : Host) (tags : MetricsTags) (n : nat)
  : main_outcome * list main_event :=
  let ret := host_Init host in
  if negb (is_success ret)
  then (ProcessExit 1,
        [ NvmlInit ret;
          Core (LogFatalf ("Unable to initialize NVML: "
                           ++ nvml_ErrorString (host_lib host) ret)%string) ])
  else
    match main_body (host_lib host) tags n [] with
    | (Returned _, t) => (StillSampling, NvmlInit ret :: map Core t)
    | (Exited c, t) => (ProcessExit c, NvmlInit ret :: map Core t)
    | (Panicked, t) =>
        let '(o, es) := deferred_Shutdown host t in
        (o, NvmlInit ret :: map Core t ++ es)
    end.

(** [main] of the baseline program. *)
Definition main_baseline (host : Host) (n : nat) : main_outcome * list main_event :=
  main host baseline_tags n.

(** [main] of [main.go]: the AWS configuration is loaded first, with
    the answer [config_err]; the client made from it is not used
    afterwards. *)
Definition main_go (config_err : error) (host : Host) (n : nat)
  : main_outcome * list main_event :=
  match config_err with
  | Some e =>
      (ProcessExit 1,
       [ LoadDefaultConfig config_err;
         Core (LogFatalf ("Unable to load AWS config: " ++ e)%string) ])
  | None =>
      let '(o, es) := main host main_go_tags n in
      (o, LoadDefaultConfig None :: es)
  end.

(** The library never hands out a nil handle together with [SUCCESS]. *)
Definition handles_not_nil (lib : NvmlLib) : Prop :=
  forall t index,
    snd (nvml_DeviceGetHandleByIndex lib t index) = SUCCESS ->
    fst (nvml_DeviceGetHandleByIndex lib t index) <> None.

(** The device count is never negative. *)
Definition count_not_negative (lib : NvmlLib) : Prop :=
  forall t, 0 <= fst (nvml_DeviceGetCount lib t).

Definition is_Shutdown (e : main_event) : bool :=
  match e with NvmlShutdown _ => true | _ => false end.

Definition is_published (e : main_event) : bool :=
  match e with Core (PutMetricData _ _) => true | _ => false end.

(** A fatal message of the range check. *)
Definition is_out_of_range (e : main_event) : bool :=
  match e with
  | Core (LogFatalf msg) => String.eqb msg "Device index out of range"
  | _ => false
  end.

(** ** More sample machines *)

(** A machine on which the driver does not answer the device count. *)
Definition no_driver_lib : NvmlLib :=
  {| nvml_DeviceGetCount := fun _ => (0, 9);
     nvml_DeviceGetHandleByIndex := nvml_DeviceGetHandleByIndex no_gpu_lib;
     nvml_GetUUID := nvml_GetUUID no_gpu_lib;
     nvml_GetTemperature := nvml_GetTemperature no_gpu_lib;
     nvml_GetPowerUsage := nvml_GetPowerUsage no_gpu_lib;
     nvml_GetMemoryInfo := nvml_GetMemoryInfo no_gpu_lib;
     nvml_GetUtilizationRates := nvml_GetUtilizationRates no_gpu_lib;
     nvml_ErrorString := fun r => if r =? 9 then "Driver Not Loaded" else "Unknown Error" |}.

(** A machine whose GPU is found but does not tell its identifier. *)
Definition uuid_fails_lib : NvmlLib :=
  {| nvml_DeviceGetCount := nvml_DeviceGetCount steady_lib;
     nvml_DeviceGetHandleByIndex := nvml_DeviceGetHandleByIndex steady_lib;
     nvml_GetUUID := fun _ _ => ("", 999);
     nvml_GetTemperature := nvml_GetTemperature steady_lib;
     nvml_GetPowerUsage := nvml_GetPowerUsage steady_lib;
     nvml_GetMemoryInfo := nvml_GetMemoryInfo steady_lib;
     nvml_GetUtilizationRates := nvml_GetUtilizationRates steady_lib;
     nvml_ErrorString := nvml_ErrorString steady_lib |}.

(** A machine whose GPU stops answering the power read once two
    records have been printed. *)
Definition is_Println (e : event) : bool :=
  match e with Println _ => true | _ => false end.

Definition printed (t : trace) : nat := List.length (filter is_Println t).

Definition fading_lib : NvmlLib :=
  {| nvml_DeviceGetCount := nvml_DeviceGetCount steady_lib;
     nvml_DeviceGetHandleByIndex := nvml_DeviceGetHandleByIndex steady_lib;
     nvml_GetUUID := nvml_GetUUID steady_lib;
     nvml_GetTemperature := nvml_GetTemperature steady_lib;
     nvml_GetPowerUsage := fun t _ =>
       if (printed t <? 2)%nat then (128000%N, SUCCESS) else (0%N, 15);
     nvml_GetMemoryInfo := nvml_GetMemoryInfo steady_lib;
     nvml_GetUtilizationRates := nvml_GetUtilizationRates steady_lib;
     nvml_ErrorString := fun r => if r =? 15 then "GPU is lost" else "Unknown Error" |}.

Definition steady_host : Host :=
  {| host_Init := SUCCESS; host_lib := steady_lib; host_Shutdown := fun _ => SUCCESS |}.

Definition no_gpu_host : Host :=
  {| host_Init := SUCCESS; host_lib := no_gpu_lib; host_Shutdown := fun _ => SUCCESS |}.

Definition fading_host : Host :=
  {| host_Init := SUCCESS; host_lib := fading_lib; host_Shutdown := fun _ => SUCCESS |}.

(** ** Reading the text of a record *)

(** A decimal numeral read back as a number. *)
Definition parse_uint (s : string) : option N :=
  option_map N.of_uint (NilZero.uint_of_string s).

Definition is_Sleep (e : event) : bool :=
  match e with Sleep _ => true | _ => false end.

Definition is_PutMetricData (e : event) : bool :=
  match e with PutMetricData _ _ => true | _ => false end.

Definition is_read_event (e : event) : bool :=
  match e with Nvml c _ => is_read c | _ => false end.

Definition is_LogFatalf (e : event) : bool :=
  match e with LogFatalf _ => true | _ => false end.

(** A float that is a number and is not negative. *)
Definition float_nonneg (x : spec_float) : bool :=
  match x with
  | S754_zero s | S754_finite s _ _ => negb s
  | _ => false
  end.

(** The events of a sample that breaks off at read number [k] (counted
    from zero) with status [ret]: the reads before it succeeded, the
    reads after it are not made. *)
Definition set_status (ret : nvml_Return) (e : event) : event :=
  match e with
  | Nvml c _ => Nvml c ret
  | _ => e
  end.

Definition reads_until (h : nvml_Handle) (k : nat) (ret : nvml_Return) : trace :=
  firstn k (sample_events h) ++ map (set_status ret) (firstn 1 (skipn k (sample_events h))).

(** The sign bit of a float, where it has one. *)
Definition float_sign_is (s : bool) (x : spec_float) : Prop :=
  match x with
  | S754_zero s' | S754_infinity s' | S754_finite s' _ _ => s' = s
  | S754_nan => True
  end.

(** The temperature and the GPU usage read back from the text of a
    record. *)
Definition read_integers (s : string) : option (N * N) :=
  match split_on "," s with
  | [a; _; c; _; _] =>
      match parse_uint a, parse_uint c with
      | Some x, Some y => Some (x, y)
      | _, _ => None
      end
  | _ => None
  end.

(** The number of sleeps in a trace. *)
Definition slept (t : trace) : nat := List.length (filter is_Sleep t).

(** The events the loop is made of: telemetry reads, printed records,
    sleeps, and fatal messages that begin with "Unable to ". *)
Definition loop_event (e : event) : bool :=
  match e with
  | Nvml c _ => is_read c
  | LogFatalf msg => prefix "Unable to " msg
  | Println _ | Sleep _ => true
  | PutMetricData _ _ => false
  end.

(** Any event but the fatal message of the range check. *)
Definition not_out_of_range (e : event) : bool :=
  match e with
  | LogFatalf msg => negb (String.eqb msg "Device index out of range")
  | _ => true
  end.

Definition any_event (e : event) : bool := true.

Definition not_published (e : event) : bool := negb (is_PutMetricData e).

(** Two floats that stand for the same number (or are the same
    infinity, or both NaN), whatever their mantissas and exponents. *)
Definition float_same_value (x y : spec_float) : bool :=
  match x, y with
  | S754_zero s, S754_zero s' => Bool.eqb s s'
  | S754_infinity s, S754_infinity s' => Bool.eqb s s'
  | S754_nan, S754_nan => true
  | S754_finite s m e, S754_finite s' m' e' =>
      Bool.eqb s s'
      && (Zpos m * 2 ^ (e - Z.min e e') =? Zpos m' * 2 ^ (e' - Z.min e e'))
  | _, _ => false
  end.

(** A finite float with at most 24 significant bits and an exponent
    that binary32 has. *)
Definition float32_shaped (x : spec_float) : Prop :=
  match x with
  | S754_finite _ m e => Zdigits2 (Zpos m) <= 24 /\ -149 <= e
  | _ => True
  end.

(** An unsigned integer as the number it is. *)
Definition integer_as_float (n : N) : spec_float :=
  match n with
  | N0 => S754_zero false
  | Npos p => S754_finite false p 0
  end.

(** The temperature and the utilization are [uint32] values. *)
Definition integers_in_range (lib : NvmlLib) (h : nvml_Handle) : Prop :=
  forall t,
    (fst (nvml_GetTemperature lib t h TEMPERATURE_GPU) < 2 ^ 32)%N
    /\ (Gpu (fst (nvml_GetUtilizationRates lib t h)) < 2 ^ 32)%N.

(** A record whose floats are not numbers: a NaN and both infinities. *)
Definition not_a_number_metrics : Metrics :=
  {| Temperature := 1; Power := S754_nan; GpuUsage := 2;
     MemoryTotal := S754_infinity false; MemoryUsed := S754_infinity true |}.


(** * Properties *)

(** ** Machine integers *)

Ltac int_consts :=
  change (2 ^ 63) with 9223372036854775808 in *;
  change (2 ^ 64) with 18446744073709551616 in *.

Lemma int_wrap_small z : in_int z -> int_wrap z = z.
Proof.
  unfold in_int, int_wrap. intros Hz. int_consts.
  rewrite Z.mod_small; lia.
Qed.

Lemma int_sub_pred index count :
  in_int index -> in_int count -> count < index -> int_sub index 1 = index - 1.
Proof.
  unfold int_sub. intros Hi Hc Hlt. apply int_wrap_small.
  unfold in_int in *. int_consts. lia.
Qed.

(** ** Floating point: conversions and quotients stay finite *)

Lemma digits2_pos_size p : digits2_pos p = Pos.size p.
Proof. induction p; cbn; congruence. Qed.

Lemma Zdigits2_nonneg m : 0 <= Zdigits2 m.
Proof. destruct m; cbn; lia. Qed.

Lemma Zdigits2_upper m : 0 <= m -> m < 2 ^ Zdigits2 m.
Proof.
  destruct m as [|p|p]; unfold Zdigits2; try lia.
  intros _. rewrite digits2_pos_size.
  pose proof (Pos.size_gt p) as H.
  apply Pos2Z.pos_lt_pos in H. now rewrite Pos2Z.inj_pow in H.
Qed.

Lemma pow2_pos_split s : 2 ^ Z.pos s = 2 * 2 ^ (Z.pos s - 1).
Proof.
  rewrite <- (Z.pow_succ_r 2 (Z.pos s - 1)) by lia. f_equal. lia.
Qed.

Lemma Zdigits2_lower m : 0 < m -> 2 ^ (Zdigits2 m - 1) <= m.
Proof.
  destruct m as [|p|p]; unfold Zdigits2; try lia.
  intros _. rewrite digits2_pos_size.
  pose proof (Pos.size_le p) as H.
  apply Pos2Z.pos_le_pos in H. rewrite Pos2Z.inj_pow in H.
  rewrite pow2_pos_split, (Pos2Z.inj_xO p) in H. lia.
Qed.

Lemma Zdigits2_le m k : 0 <= m -> 0 <= k -> m < 2 ^ k -> Zdigits2 m <= k.
Proof.
  intros Hm Hk Hlt.
  destruct (Z.eq_dec m 0) as [->|Hne]; [cbn; lia|].
  pose proof (Zdigits2_lower m ltac:(lia)) as Hlow.
  destruct (Z.le_gt_cases (Zdigits2 m) k) as [|Hgt]; [assumption|exfalso].
  assert (2 ^ k <= 2 ^ (Zdigits2 m - 1)) by (apply Z.pow_le_mono_r; lia).
  lia.
Qed.

Lemma shr_1_m mrs : 0 <= shr_m mrs -> shr_m (shr_1 mrs) = shr_m mrs / 2.
Proof.
  destruct mrs as [m r s]. cbn [shr_m]. intros Hm.
  destruct m as [|[p|p|]|p]; cbn [shr_1 shr_m]; try lia; try reflexivity.
  - rewrite (Pos2Z.inj_xI p). rewrite Z.mul_comm, Z.div_add_l by lia. 
    replace (1/2) with 0 by reflexivity. lia.
  - rewrite (Pos2Z.inj_xO p). rewrite Z.mul_comm, Z.div_mul by lia. reflexivity.
Qed.

Lemma pow2_xI p : 2 ^ Z.pos p~1 = 2 * 2 ^ Z.pos p * 2 ^ Z.pos p.
Proof.
  replace (Z.pos p~1) with (1 + Z.pos p + Z.pos p) by lia.
  rewrite !Z.pow_add_r by lia. reflexivity.
Qed.

Lemma pow2_xO p : 2 ^ Z.pos p~0 = 2 ^ Z.pos p * 2 ^ Z.pos p.
Proof.
  replace (Z.pos p~0) with (Z.pos p + Z.pos p) by lia.
  rewrite !Z.pow_add_r by lia. reflexivity.
Qed.

Lemma pow2_pos k : 0 < 2 ^ Z.pos k.
Proof. apply Z.pow_pos_nonneg; lia. Qed.

Lemma shr_1_nonneg mrs : 0 <= shr_m mrs -> 0 <= shr_m (shr_1 mrs).
Proof. intros H. rewrite shr_1_m by assumption. apply Z.div_pos; lia. Qed.

Lemma iter_shr_1_m p : forall mrs,
  0 <= shr_m mrs ->
  shr_m (iter_pos shr_1 p mrs) = shr_m mrs / 2 ^ Zpos p.
Proof.
  induction p as [p IH|p IH|]; intros mrs Hm; cbn [iter_pos].
  - pose proof (pow2_pos p) as Hp.
    pose proof (shr_1_nonneg mrs Hm) as H1.
    assert (H2 : 0 <= shr_m (iter_pos shr_1 p (shr_1 mrs))).
    { rewrite IH by assumption. apply Z.div_pos; lia. }
    rewrite IH, IH, shr_1_m by assumption.
    rewrite !Z.div_div by lia. rewrite pow2_xI. f_equal. ring.
  - pose proof (pow2_pos p) as Hp.
    assert (H2 : 0 <= shr_m (iter_pos shr_1 p mrs)).
    { rewrite IH by assumption. apply Z.div_pos; lia. }
    rewrite IH, IH by assumption.
    rewrite Z.div_div by lia. now rewrite pow2_xO.
  - rewrite shr_1_m by assumption. reflexivity.
Qed.

Lemma shr_spec mrs e n :
  0 <= shr_m mrs ->
  shr_m (fst (shr mrs e n)) = shr_m mrs / 2 ^ Z.max n 0
  /\ snd (shr mrs e n) = e + Z.max n 0.
Proof.
  intros Hm. destruct n as [|p|p]; cbn [shr fst snd].
  - cbn. rewrite Z.div_1_r. lia.
  - rewrite iter_shr_1_m by assumption. rewrite Z.max_l by lia. split; reflexivity.
  - rewrite Z.max_r by lia. cbn. rewrite Z.div_1_r. lia.
Qed.

Lemma round_nearest_even_bounds m l :
  m <= round_nearest_even m l <= m + 1.
Proof.
  unfold round_nearest_even. destruct l as [|[| |]]; try lia.
  destruct (Z.even m); lia.
Qed.

Lemma shr_record_of_loc_m m l : shr_m (shr_record_of_loc m l) = m.
Proof. destruct l as [|[| |]]; reflexivity. Qed.

Lemma fexp32 e : fexp 24 128 e = Z.max (e - 24) (-149).
Proof. reflexivity. Qed.

Lemma pow2_pos_nonneg k : 0 <= k -> 0 < 2 ^ k.
Proof. intros. apply Z.pow_pos_nonneg; lia. Qed.

Lemma Zdigits2_shift m n :
  0 <= m -> 0 <= n -> Zdigits2 (m / 2 ^ n) + n <= Z.max (Zdigits2 m) n.
Proof.
  intros Hm Hn.
  pose proof (pow2_pos_nonneg n Hn) as Hp.
  pose proof (Zdigits2_upper m Hm) as Hup.
  pose proof (Zdigits2_nonneg m) as Hd.
  destruct (Z.le_gt_cases n (Zdigits2 m)) as [Hle|Hgt].
  - assert (Hq : m / 2 ^ n < 2 ^ (Zdigits2 m - n)).
    { apply Z.div_lt_upper_bound; [assumption|].
      rewrite <- Z.pow_add_r by lia. now replace (n + (Zdigits2 m - n)) with (Zdigits2 m) by lia. }
    pose proof (Zdigits2_le (m / 2 ^ n) (Zdigits2 m - n)
                  ltac:(apply Z.div_pos; lia) ltac:(lia) Hq).
    lia.
  - assert (Hsmall : m / 2 ^ n = 0).
    { apply Z.div_small. split; [assumption|].
      apply Z.lt_le_trans with (1 := Hup). apply Z.pow_le_mono_r; lia. }
    rewrite Hsmall. cbn. lia.
Qed.

Lemma Zdigits2_succ m m' :
  0 <= m -> 0 <= m' <= m + 1 -> Zdigits2 m' <= Zdigits2 m + 1.
Proof.
  intros Hm Hm'.
  pose proof (Zdigits2_upper m Hm) as Hup.
  pose proof (Zdigits2_nonneg m) as Hd.
  apply Zdigits2_le; [lia|lia|].
  rewrite Z.pow_add_r by lia. change (2 ^ 1) with 2. lia.
Qed.

Lemma shr_fexp_spec m e l :
  0 <= m ->
  let n := Z.max (fexp 24 128 (Zdigits2 m + e) - e) 0 in
  shr_m (fst (shr_fexp 24 128 m e l)) = m / 2 ^ n
  /\ snd (shr_fexp 24 128 m e l) = e + n.
Proof.
  intros Hm n. unfold shr_fexp. subst n.
  rewrite <- (shr_record_of_loc_m m l) at 3.
  apply shr_spec. now rewrite shr_record_of_loc_m.
Qed.

Lemma binary_round_aux_bound s mx ex lx K :
  0 <= mx -> ex <= 104 -> Zdigits2 mx + ex <= K -> K <= 127 ->
  float_bound (Z.max (K + 1) (-148)) (binary_round_aux 24 128 s mx ex lx).
Proof.
  intros Hmx Hex HK HK127.
  unfold binary_round_aux.
  pose proof (shr_fexp_spec mx ex lx Hmx) as [Hm1 He1].
  destruct (shr_fexp 24 128 mx ex lx) as [mrs' e']. cbn [fst snd] in Hm1, He1.
  set (n1 := Z.max (fexp 24 128 (Zdigits2 mx + ex) - ex) 0) in *.
  set (m1 := shr_m mrs') in *.
  set (m1' := round_nearest_even m1 (loc_of_shr_record mrs')).
  pose proof (round_nearest_even_bounds m1 (loc_of_shr_record mrs')) as Hr.
  fold m1' in Hr.
  assert (Hn1 : 0 <= n1) by (unfold n1; lia).
  assert (Hm1nn : 0 <= m1).
  { rewrite Hm1. apply Z.div_pos; [assumption|now apply pow2_pos_nonneg]. }
  pose proof (Zdigits2_shift mx n1 Hmx Hn1) as Hs1. rewrite <- Hm1 in Hs1.
  pose proof (Zdigits2_succ m1 m1' Hm1nn ltac:(lia)) as Hd1.
  pose proof (Zdigits2_nonneg mx) as Hdmx.
  pose proof (Zdigits2_nonneg m1') as Hdm1'.
  pose proof (shr_fexp_spec m1' e' loc_Exact ltac:(lia)) as [Hm2 He2].
  destruct (shr_fexp 24 128 m1' e' loc_Exact) as [mrs'' e'']. cbn [fst snd] in Hm2, He2.
  set (n2 := Z.max (fexp 24 128 (Zdigits2 m1' + e') - e') 0) in *.
  assert (Hn2 : 0 <= n2) by (unfold n2; lia).
  pose proof (Zdigits2_shift m1' n2 ltac:(lia) Hn2) as Hs2. rewrite <- Hm2 in Hs2.
  assert (Hm2nn : 0 <= shr_m mrs'').
  { rewrite Hm2. apply Z.div_pos; [lia|now apply pow2_pos_nonneg]. }
  unfold n1, n2 in *. rewrite !fexp32 in *.
  destruct (shr_m mrs'') as [|m|m] eqn:Em; [exact I| |lia].
  destruct (Z.leb_spec e'' (128 - 24)) as [Hle|Hgt].
  - cbn [float_bound]. lia.
  - exfalso. lia.
Qed.

Lemma digits2_pos_iter_xO p k :
  Zpos (digits2_pos (Pos.iter xO p k)) = Zpos (digits2_pos p) + Zpos k.
Proof.
  induction k as [|k IH] using Pos.peano_ind.
  - cbn. lia.
  - rewrite Pos.iter_succ. cbn [digits2_pos]. lia.
Qed.

Lemma binary_round_bound s p K :
  Zpos p < 2 ^ K -> 0 <= K <= 127 ->
  float_bound (K + 1) (binary_round 24 128 s p 0).
Proof.
  intros Hp HK. unfold binary_round, shl_align.
  pose proof (Zdigits2_le (Zpos p) K ltac:(lia) ltac:(lia) Hp) as Hd.
  cbn [Zdigits2] in Hd. rewrite fexp32.
  assert (Hmax : Z.max (K + 1) (-148) = K + 1) by lia.
  rewrite <- Hmax.
  destruct (Z.max (Z.pos (digits2_pos p) + 0 - 24) (-149) - 0) as [|d|d] eqn:Ed.
  - apply binary_round_aux_bound; cbn [Zdigits2]; lia.
  - apply binary_round_aux_bound; cbn [Zdigits2]; lia.
  - apply binary_round_aux_bound; cbn [Zdigits2]; try lia.
    rewrite digits2_pos_iter_xO. lia.
Qed.

Lemma SFdiv_core_bound mx ex my ey :
  let D := Zdigits2 (Zpos mx) + ex - (Zdigits2 (Zpos my) + ey) in
  let '(mz, ez, _) := SFdiv_core_binary 24 128 (Zpos mx) ex (Zpos my) ey in
  0 <= mz
  /\ ez <= Z.max (D - 24) (-149)
  /\ Zdigits2 mz + ez <= Z.max (D + 1) (Z.max (D - 24) (-149)).
Proof.
  intros D. unfold SFdiv_core_binary. rewrite fexp32. fold D.
  set (d1 := Zdigits2 (Zpos mx)) in *.
  set (d2 := Zdigits2 (Zpos my)) in *.
  set (e' := Z.min (Z.max (D - 24) (-149)) (ex - ey)).
  set (s := ex - ey - e').
  assert (Hs : 0 <= s) by (unfold s, e'; lia).
  set (m' := match s with Z.pos _ => Z.shiftl (Z.pos mx) s | 0 => Z.pos mx | Z.neg _ => 0 end).
  assert (Hm' : m' = Zpos mx * 2 ^ s).
  { unfold m'. destruct s as [|p|p] eqn:Es.
    - cbn. lia.
    - now rewrite Z.shiftl_mul_pow2 by lia.
    - lia. }
  clearbody m'.
  destruct (Z.div_eucl m' (Zpos my)) as [q r] eqn:Ediv.
  assert (Hq : q = m' / Zpos my) by (unfold Z.div; now rewrite Ediv).
  pose proof (pow2_pos_nonneg s Hs) as Hps.
  pose proof (Zdigits2_upper (Zpos mx) ltac:(lia)) as Hup1. fold d1 in Hup1.
  pose proof (Zdigits2_lower (Zpos my) ltac:(lia)) as Hlow2. fold d2 in Hlow2.
  assert (Hd1 : 0 < d1) by (unfold d1; cbn; lia).
  assert (Hd2 : 0 < d2) by (unfold d2; cbn; lia).
  assert (Hm'nn : 0 <= m') by (rewrite Hm'; lia).
  assert (Hm'up : m' < 2 ^ (d1 + s)).
  { rewrite Hm', Z.pow_add_r by lia. apply Z.mul_lt_mono_pos_r; assumption. }
  assert (Hqnn : 0 <= q) by (rewrite Hq; apply Z.div_pos; lia).
  assert (Hdq : Zdigits2 q <= Z.max (d1 + s - d2 + 1) 0).
  { destruct (Z.le_gt_cases 0 (d1 + s - d2 + 1)) as [Ha|Ha].
    - rewrite Z.max_l by assumption.
      apply Zdigits2_le; [assumption|assumption|].
      rewrite Hq. apply Z.div_lt_upper_bound; [lia|].
      apply Z.lt_le_trans with (1 := Hm'up).
      set (a := d1 + s - d2 + 1) in *.
      replace (d1 + s) with ((d2 - 1) + a) by (unfold a; lia).
      rewrite Z.pow_add_r by lia.
      apply Z.mul_le_mono_nonneg_r; [|assumption].
      apply Z.lt_le_incl, pow2_pos_nonneg. assumption.
    - assert (Hq0 : q = 0).
      { rewrite Hq. apply Z.div_small. split; [assumption|].
        apply Z.lt_le_trans with (1 := Hm'up).
        apply Z.le_trans with (2 := Hlow2).
        apply Z.pow_le_mono_r; lia. }
      rewrite Hq0. cbn. lia. }
  repeat split; unfold s, e' in *; lia.
Qed.

Lemma f32_div_finite x sy my ey :
  float_bound 66 x ->
  -50 <= Zdigits2 (Zpos my) + ey ->
  float_bound 127 (SFdiv 24 128 x (S754_finite sy my ey)).
Proof.
  intros Hx Hy. destruct x as [sx|sx| |sx mx ex]; cbn [float_bound] in Hx; try contradiction.
  - exact I.
  - unfold SFdiv.
    pose proof (SFdiv_core_bound mx ex my ey) as Hcore. cbv zeta in Hcore.
    destruct (SFdiv_core_binary 24 128 (Z.pos mx) ex (Z.pos my) ey) as [[mz ez] lz].
    destruct Hcore as [Hmz [Hez Hdz]].
    pose proof (binary_round_aux_bound (xorb sx sy) mz ez lz 126
                  Hmz ltac:(lia) ltac:(lia) ltac:(lia)) as Hb.
    now rewrite Z.max_l in Hb by lia.
Qed.

Lemma f32_of_N_bound n K :
  (n < 2 ^ Z.to_N K)%N -> 0 <= K <= 127 -> float_bound (K + 1) (f32_of_N n).
Proof.
  intros Hn HK. unfold f32_of_N, f32_of_Z, binary_normalize.
  destruct n as [|p]; [exact I|]. cbn [Z.of_N].
  apply binary_round_bound; [|assumption].
  apply N2Z.inj_lt in Hn. rewrite N2Z.inj_pow, Z2N.id in Hn by lia. exact Hn.
Qed.

Lemma float_bound_weaken K K' x : K <= K' -> float_bound K x -> float_bound K' x.
Proof. destruct x; cbn; auto. lia. Qed.

Lemma float_bound_is_finite K x : float_bound K x -> is_finite x = true.
Proof. destruct x; cbn; auto; contradiction. Qed.

(** The quotients that [GetPower] and [GetUtilization] compute are
    numbers whenever the reading fits in 64 bits. *)
Lemma watts_finite n :
  (n < 2 ^ 64)%N -> is_finite (f32_div (f32_of_N n) (f32_of_Z 1000)) = true.
Proof.
  intros Hn. apply (float_bound_is_finite 127).
  apply (f32_div_finite (f32_of_N n) false 16384000 (-14)).
  - apply (float_bound_weaken 65); [lia|]. now apply (f32_of_N_bound n 64).
  - cbn. lia.
Qed.

Lemma gigabytes_finite n :
  (n < 2 ^ 64)%N -> is_finite (f32_div (f32_of_N n) (f32_of_Z (2 ^ 30))) = true.
Proof.
  intros Hn. apply (float_bound_is_finite 127).
  apply (f32_div_finite (f32_of_N n) false 8388608 7).
  - apply (float_bound_weaken 65); [lia|]. now apply (f32_of_N_bound n 64).
  - cbn. lia.
Qed.

(** ** Traces *)

Lemma snoc_snoc (t : trace) a b : (t ++ [a]) ++ [b] = t ++ [a; b].
Proof. now rewrite <- app_assoc. Qed.

Lemma snoc_app (t : trace) a l : (t ++ [a]) ++ l = t ++ a :: l.
Proof. now rewrite <- app_assoc. Qed.

Ltac run_go :=
  unfold GetDevice, GetMetrics, GetTemperature, GetPower, GetUtilization,
    deviceHandleErrorString, call_method, call_DeviceGetCount,
    call_DeviceGetHandleByIndex, log_Fatalf, bind, pure, panic.

(** ** Device discovery *)

(** An index strictly greater than the device count is refused right
    after the count has been read: no handle is resolved. *)
Lemma GetDevice_beyond_count lib index t count :
  in_int index -> in_int count ->
  nvml_DeviceGetCount lib t = (count, SUCCESS) ->
  count < index ->
  GetDevice lib index t =
    (Exited 1,
     t ++ [Nvml DeviceGetCount SUCCESS; LogFatalf "Device index out of range"]).
Proof.
  intros Hi Hc Hcount Hlt. run_go. rewrite Hcount. cbn.
  rewrite (int_sub_pred index count) by assumption.
  destruct (Z.leb_spec count (index - 1)) as [_|Hge]; [|lia].
  now rewrite snoc_snoc.
Qed.

(** An index equal to the device count passes the range check: the
    library is asked for the handle. *)
Lemma GetDevice_at_count_resolves_handle lib index t :
  in_int index -> 0 <= index ->
  nvml_DeviceGetCount lib t = (index, SUCCESS) ->
  exists out r rest,
    GetDevice lib index t =
      (out, t ++ [Nvml DeviceGetCount SUCCESS;
                  Nvml (DeviceGetHandleByIndex index) r] ++ rest)
    /\ forall msg, ~ In (LogFatalf msg) rest.
Proof.
  intros Hi Hnn Hcount. run_go. rewrite Hcount. cbn.
  assert (Hsub : (index <=? int_sub index 1) = false).
  { apply Z.leb_gt. unfold int_sub, int_wrap, in_int in *. int_consts.
    rewrite Z.mod_small by lia. lia. }
  rewrite Hsub. cbn.
  destruct (nvml_DeviceGetHandleByIndex lib (t ++ [Nvml DeviceGetCount SUCCESS]) index)
    as [device r] eqn:Hdev.
  cbn. destruct (is_success r) eqn:Hr; cbn.
  - destruct device as [h|]; cbn.
    + destruct (nvml_GetUUID lib _ h) as [uuid r'] eqn:Hu. cbn.
      destruct (is_success r'); cbn; rewrite snoc_snoc;
        eexists _, r, [_]; (split; [rewrite snoc_app; reflexivity|]);
        intros msg [H|[]]; discriminate.
    + rewrite snoc_snoc. eexists _, r, []. split; [reflexivity|]. intros msg [].
  - rewrite snoc_snoc. eexists _, r, []. split; [reflexivity|]. intros msg [].
Qed.

(** C1, at the input on which it fails.  [main] asks for device 0; on a
    machine where the library reports zero devices the index equals the
    count, so it is out of range, yet [GetDevice] does not stop with
    "Device index out of range": it goes on to ask the library for the
    handle and returns the library's error. *)
Theorem GetDevice_index_equal_count_not_refused :
  GetDevice no_gpu_lib 0 [] =
    (Returned (Device_zero,
               Some "unable to get device at index 0: Invalid Argument"),
     [Nvml DeviceGetCount SUCCESS; Nvml (DeviceGetHandleByIndex 0) 2]).
Proof. reflexivity. Qed.

Lemma is_success_true ret : is_success ret = true -> ret = SUCCESS.
Proof. unfold is_success. apply Z.eqb_eq. Qed.

Lemma is_success_false ret : ret <> SUCCESS -> is_success ret = false.
Proof. unfold is_success. apply Z.eqb_neq. Qed.

(** C9: a successful [GetDevice] returns a [Device] whose [Index] is the
    requested index, whose [Handle] is the handle the library resolved
    for that index, and whose [UUID] is the identifier the library gave
    for that handle. *)
Theorem GetDevice_success_fields lib index t d t' :
  GetDevice lib index t = (Returned (d, None), t') ->
  let t1 := t ++ [Nvml DeviceGetCount SUCCESS] in
  let t2 := t1 ++ [Nvml (DeviceGetHandleByIndex index) SUCCESS] in
  Index d = index /\
  exists h,
    nvml_DeviceGetHandleByIndex lib t1 index = (Some h, SUCCESS) /\
    Handle d = Some h /\
    nvml_GetUUID lib t2 h = (UUID d, SUCCESS).
Proof.
  run_go.
  destruct (nvml_DeviceGetCount lib t) as [count r0] eqn:Hcount. cbn.
  destruct (is_success r0) eqn:Hr0; cbn; [|discriminate].
  apply is_success_true in Hr0. subst r0.
  destruct (count <=? int_sub index 1); cbn; [discriminate|].
  destruct (nvml_DeviceGetHandleByIndex lib _ index) as [device r1] eqn:Hdev. cbn.
  destruct (is_success r1) eqn:Hr1; cbn; [|discriminate].
  apply is_success_true in Hr1. subst r1.
  destruct device as [h|]; cbn; [|discriminate].
  destruct (nvml_GetUUID lib _ h) as [uuid r2] eqn:Huuid. cbn.
  destruct (is_success r2) eqn:Hr2; cbn; [|discriminate].
  apply is_success_true in Hr2. subst r2.
  intros [= <- <-]. cbn. split; [reflexivity|].
  exists h. repeat split; assumption.
Qed.

Lemma GetDevice_success_fields_witness :
  Index steady_device = 0 /\
  exists h,
    nvml_DeviceGetHandleByIndex steady_lib [Nvml DeviceGetCount SUCCESS] 0
      = (Some h, SUCCESS) /\
    Handle steady_device = Some h /\
    nvml_GetUUID steady_lib
      [Nvml DeviceGetCount SUCCESS; Nvml (DeviceGetHandleByIndex 0) SUCCESS] h
      = (UUID steady_device, SUCCESS).
Proof.
  exact (GetDevice_success_fields steady_lib 0 [] steady_device
           [Nvml DeviceGetCount SUCCESS; Nvml (DeviceGetHandleByIndex 0) SUCCESS;
            Nvml (GetUUID 7%N) SUCCESS] eq_refl).
Defined.

(** ** The getters *)

(** C8: when the library read behind a getter fails, the getter returns
    zero in every result position, and an error whose message is the
    library's error string for the status the read returned.
    [GetUtilization] makes two reads; either one failing has that
    effect. *)
Theorem getters_failure_zero_and_error_string lib d h t :
  Handle d = Some h ->
  (forall temp ret,
      nvml_GetTemperature lib t h TEMPERATURE_GPU = (temp, ret) ->
      ret <> SUCCESS ->
      GetTemperature lib d t =
        (Returned (0%N, Some (nvml_ErrorString lib ret)),
         t ++ [Nvml (HandleGetTemperature h TEMPERATURE_GPU) ret]))
  /\ (forall power ret,
      nvml_GetPowerUsage lib t h = (power, ret) ->
      ret <> SUCCESS ->
      GetPower lib d t =
        (Returned (f32_zero, Some (nvml_ErrorString lib ret)),
         t ++ [Nvml (HandleGetPowerUsage h) ret]))
  /\ (forall memory ret,
      nvml_GetMemoryInfo lib t h = (memory, ret) ->
      ret <> SUCCESS ->
      GetUtilization lib d t =
        (Returned (0%N, f32_zero, f32_zero, Some (nvml_ErrorString lib ret)),
         t ++ [Nvml (HandleGetMemoryInfo h) ret]))
  /\ (forall memory util ret,
      nvml_GetMemoryInfo lib t h = (memory, SUCCESS) ->
      nvml_GetUtilizationRates lib (t ++ [Nvml (HandleGetMemoryInfo h) SUCCESS]) h
        = (util, ret) ->
      ret <> SUCCESS ->
      GetUtilization lib d t =
        (Returned (0%N, f32_zero, f32_zero, Some (nvml_ErrorString lib ret)),
         t ++ [Nvml (HandleGetMemoryInfo h) SUCCESS;
               Nvml (HandleGetUtilizationRates h) ret])).
Proof.
  intros Hh. repeat split.
  - intros temp ret Hread Hret. run_go. rewrite Hh, Hread. cbn.
    now rewrite (is_success_false ret Hret).
  - intros power ret Hread Hret. run_go. rewrite Hh, Hread. cbn.
    now rewrite (is_success_false ret Hret).
  - intros memory ret Hread Hret. run_go. rewrite Hh, Hread. cbn.
    now rewrite (is_success_false ret Hret).
  - intros memory util ret Hmem Hread Hret. run_go. rewrite Hh, Hmem. cbn.
    rewrite Hread. cbn. rewrite (is_success_false ret Hret). cbn.
    now rewrite snoc_snoc.
Qed.

Lemma getters_failure_zero_and_error_string_witness :
  GetTemperature no_gpu_lib steady_device [] =
    (Returned (0%N, Some "Invalid Argument"),
     [Nvml (HandleGetTemperature 7%N TEMPERATURE_GPU) 2])
  /\ GetPower no_gpu_lib steady_device [] =
    (Returned (f32_zero, Some "Invalid Argument"), [Nvml (HandleGetPowerUsage 7%N) 2])
  /\ GetUtilization no_gpu_lib steady_device [] =
    (Returned (0%N, f32_zero, f32_zero, Some "Invalid Argument"),
     [Nvml (HandleGetMemoryInfo 7%N) 2])
  /\ GetUtilization util_fails_lib steady_device [] =
    (Returned (0%N, f32_zero, f32_zero, Some "Unknown Error"),
     [Nvml (HandleGetMemoryInfo 7%N) SUCCESS; Nvml (HandleGetUtilizationRates 7%N) 999]).
Proof.
  destruct (getters_failure_zero_and_error_string no_gpu_lib steady_device 7%N []
              eq_refl) as [Htemp [Hpower [Hmem _]]].
  destruct (getters_failure_zero_and_error_string util_fails_lib steady_device 7%N []
              eq_refl) as [_ [_ [_ Hutil]]].
  split; [|split; [|split]].
  - apply (Htemp 0%N 2 eq_refl). discriminate.
  - apply (Hpower 0%N 2 eq_refl). discriminate.
  - apply (Hmem {| Total := 0; Free := 0; Used := 0 |} 2 eq_refl). discriminate.
  - apply (Hutil {| Total := 17179869184; Free := 12884901888; Used := 4294967296 |}
             {| Gpu := 0; Memory := 0 |} 999 eq_refl eq_refl).
    discriminate.
Defined.

(** ** Sampling *)

(** The record of a sample on which all four reads succeed. *)
Lemma GetMetrics_all_reads_succeed lib d h t temp power memory util :
  Handle d = Some h ->
  nvml_GetTemperature lib t h TEMPERATURE_GPU = (temp, SUCCESS) ->
  let t1 := t ++ [Nvml (HandleGetTemperature h TEMPERATURE_GPU) SUCCESS] in
  nvml_GetPowerUsage lib t1 h = (power, SUCCESS) ->
  let t2 := t1 ++ [Nvml (HandleGetPowerUsage h) SUCCESS] in
  nvml_GetMemoryInfo lib t2 h = (memory, SUCCESS) ->
  let t3 := t2 ++ [Nvml (HandleGetMemoryInfo h) SUCCESS] in
  nvml_GetUtilizationRates lib t3 h = (util, SUCCESS) ->
  GetMetrics lib d t =
    (Returned
       ({| Temperature := temp;
           Power := f32_div (f32_of_N power) (f32_of_Z 1000);
           GpuUsage := Gpu util;
           MemoryTotal := f32_div (f32_of_N (Total memory)) (f32_of_Z (2 ^ 30));
           MemoryUsed := f32_div (f32_of_N (Used memory)) (f32_of_Z (2 ^ 30)) |},
        None),
     t ++ sample_events h).
Proof.
  intros Hh Htemp t1 Hpower t2 Hmem t3 Hutil. subst t1 t2 t3.
  run_go. rewrite Hh, Htemp. cbn. rewrite Hpower. cbn.
  rewrite Hmem. cbn. rewrite Hutil. cbn.
  unfold sample_events. now rewrite !snoc_app.
Qed.

(** C3: the record of every successful sample holds the temperature
    and the GPU utilization as the library gave them, the power reading
    in milliwatts divided by 1000, and the total and used memory in
    bytes divided by 2^30 (the binary gigabyte), each division carried
    out on [float32] values. *)
Theorem GetMetrics_unit_conversion lib d h t m t' :
  Handle d = Some h ->
  GetMetrics lib d t = (Returned (m, None), t') ->
  let t1 := t ++ [Nvml (HandleGetTemperature h TEMPERATURE_GPU) SUCCESS] in
  let t2 := t1 ++ [Nvml (HandleGetPowerUsage h) SUCCESS] in
  let t3 := t2 ++ [Nvml (HandleGetMemoryInfo h) SUCCESS] in
  Temperature m = fst (nvml_GetTemperature lib t h TEMPERATURE_GPU)
  /\ Power m = f32_div (f32_of_N (fst (nvml_GetPowerUsage lib t1 h))) (f32_of_Z 1000)
  /\ GpuUsage m = Gpu (fst (nvml_GetUtilizationRates lib t3 h))
  /\ MemoryTotal m =
       f32_div (f32_of_N (Total (fst (nvml_GetMemoryInfo lib t2 h)))) (f32_of_Z (2 ^ 30))
  /\ MemoryUsed m =
       f32_div (f32_of_N (Used (fst (nvml_GetMemoryInfo lib t2 h)))) (f32_of_Z (2 ^ 30)).
Proof.
  intros Hh. run_go. rewrite Hh.
  destruct (nvml_GetTemperature lib t h TEMPERATURE_GPU) as [temp r1]. cbn.
  destruct (is_success r1) eqn:Hr1; cbn; [|discriminate].
  apply is_success_true in Hr1. subst r1.
  destruct (nvml_GetPowerUsage lib _ h) as [power r2]. cbn.
  destruct (is_success r2) eqn:Hr2; cbn; [|discriminate].
  apply is_success_true in Hr2. subst r2.
  destruct (nvml_GetMemoryInfo lib _ h) as [memory r3]. cbn.
  destruct (is_success r3) eqn:Hr3; cbn; [|discriminate].
  apply is_success_true in Hr3. subst r3.
  destruct (nvml_GetUtilizationRates lib _ h) as [util r4]. cbn.
  destruct (is_success r4) eqn:Hr4; cbn; [|discriminate].
  intros [= <- _]. cbn. repeat split.
Qed.

(** The reading of the specification: 128000 milliwatts come out as
    128.0 watts; 16 GiB and 4 GiB of memory come out as 16.0 and 4.0. *)
Lemma GetMetrics_unit_conversion_witness :
  Temperature steady_metrics = 61%N
  /\ Power steady_metrics = f32_div (f32_of_N 128000) (f32_of_Z 1000)
  /\ GpuUsage steady_metrics = 93%N
  /\ MemoryTotal steady_metrics = f32_div (f32_of_N 17179869184) (f32_of_Z (2 ^ 30))
  /\ MemoryUsed steady_metrics = f32_div (f32_of_N 4294967296) (f32_of_Z (2 ^ 30)).
Proof.
  exact (GetMetrics_unit_conversion steady_lib steady_device 7%N [] steady_metrics
           (sample_events 7%N) eq_refl eq_refl).
Defined.

Example milliwatts_to_watts :
  f32_div (f32_of_N 128000) (f32_of_Z 1000) = S754_finite false 8388608 (-16)
  /\ f32_of_Z 128 = S754_finite false 8388608 (-16).
Proof. split; reflexivity. Qed.

Ltac trace_tail H :=
  rewrite ?snoc_app in H; apply app_inv_head in H; subst.

(** C4: whenever one of the reads that [GetMetrics] makes fails, the
    result is an error paired with the empty record: none of the values
    read before the failure is handed out. *)
Theorem GetMetrics_no_partial_record lib d h t out new :
  Handle d = Some h ->
  GetMetrics lib d t = (out, t ++ new) ->
  existsb failed_read new = true ->
  exists msg, out = Returned (Metrics_zero, Some msg).
Proof.
  intros Hh. run_go. rewrite Hh.
  destruct (nvml_GetTemperature lib t h TEMPERATURE_GPU) as [temp r1]. cbn.
  destruct (is_success r1) eqn:Hr1; cbn.
  2:{ intros [= <- _] _. eauto. }
  destruct (nvml_GetPowerUsage lib _ h) as [power r2]. cbn.
  destruct (is_success r2) eqn:Hr2; cbn.
  2:{ intros [= <- _] _. eauto. }
  destruct (nvml_GetMemoryInfo lib _ h) as [memory r3]. cbn.
  destruct (is_success r3) eqn:Hr3; cbn.
  2:{ intros [= <- _] _. eauto. }
  destruct (nvml_GetUtilizationRates lib _ h) as [util r4]. cbn.
  destruct (is_success r4) eqn:Hr4; cbn.
  2:{ intros [= <- _] _. eauto. }
  intros [= <- Htrace]. trace_tail Htrace.
  cbn. rewrite Hr1, Hr2, Hr3, Hr4. discriminate.
Qed.

Lemma GetMetrics_no_partial_record_witness :
  exists msg,
    fst (GetMetrics util_fails_lib steady_device []) = Returned (Metrics_zero, Some msg).
Proof.
  exact (GetMetrics_no_partial_record util_fails_lib steady_device 7%N []
           (Returned (Metrics_zero, Some "Unknown Error"))
           [Nvml (HandleGetTemperature 7%N TEMPERATURE_GPU) SUCCESS;
            Nvml (HandleGetPowerUsage 7%N) SUCCESS;
            Nvml (HandleGetMemoryInfo 7%N) SUCCESS;
            Nvml (HandleGetUtilizationRates 7%N) 999]
           eq_refl eq_refl eq_refl).
Defined.

(** The other way round: [GetMetrics] on a device with a handle always
    returns, and when no read failed it returns the complete record
    without an error. *)
Lemma GetMetrics_returns lib d h t :
  Handle d = Some h ->
  exists m err new,
    GetMetrics lib d t = (Returned (m, err), t ++ new)
    /\ (err = None <-> existsb failed_read new = false)
    /\ (err <> None -> m = Metrics_zero).
Proof.
  intros Hh. run_go. rewrite Hh.
  destruct (nvml_GetTemperature lib t h TEMPERATURE_GPU) as [temp r1]. cbn.
  destruct (is_success r1) eqn:Hr1; cbn.
  2:{ eexists _, _, [_]. split; [reflexivity|]. cbn. rewrite Hr1. cbn.
      split; [split; discriminate|reflexivity]. }
  destruct (nvml_GetPowerUsage lib _ h) as [power r2]. cbn.
  destruct (is_success r2) eqn:Hr2; cbn.
  2:{ rewrite snoc_snoc. eexists _, _, [_; _]. split; [reflexivity|]. cbn.
      rewrite Hr1, Hr2. cbn. split; [split; discriminate|reflexivity]. }
  destruct (nvml_GetMemoryInfo lib _ h) as [memory r3]. cbn.
  destruct (is_success r3) eqn:Hr3; cbn.
  2:{ rewrite !snoc_app. eexists _, _, [_; _; _]. split; [reflexivity|]. cbn.
      rewrite Hr1, Hr2, Hr3. cbn. split; [split; discriminate|reflexivity]. }
  destruct (nvml_GetUtilizationRates lib _ h) as [util r4]. cbn.
  destruct (is_success r4) eqn:Hr4; cbn.
  2:{ rewrite !snoc_app. eexists _, _, [_; _; _; _]. split; [reflexivity|]. cbn.
      rewrite Hr1, Hr2, Hr3, Hr4. cbn. split; [split; discriminate|reflexivity]. }
  rewrite !snoc_app. eexists _, _, [_; _; _; _]. split; [reflexivity|]. cbn.
  rewrite Hr1, Hr2, Hr3, Hr4. cbn. split; [split; reflexivity|congruence].
Qed.

(** Every record sampled from readings that fit their types holds
    numbers only, *)
Lemma GetMetrics_record_finite lib d h t m t' :
  Handle d = Some h ->
  readings_in_range lib h ->
  GetMetrics lib d t = (Returned (m, None), t') ->
  is_finite (Power m) = true
  /\ is_finite (MemoryTotal m) = true
  /\ is_finite (MemoryUsed m) = true.
Proof.
  intros Hh Hrange. run_go. rewrite Hh.
  destruct (nvml_GetTemperature lib t h TEMPERATURE_GPU) as [temp r1]. cbn.
  destruct (is_success r1); cbn; [|discriminate].
  destruct (nvml_GetPowerUsage lib _ h) as [power r2] eqn:Hpower. cbn.
  destruct (is_success r2); cbn; [|discriminate].
  destruct (nvml_GetMemoryInfo lib _ h) as [memory r3] eqn:Hmem. cbn.
  destruct (is_success r3); cbn; [|discriminate].
  destruct (nvml_GetUtilizationRates lib _ h) as [util r4]. cbn.
  destruct (is_success r4); cbn; [|discriminate].
  intros [= <- _]. cbn.
  match type of Hpower with nvml_GetPowerUsage _ ?t1 _ = _ =>
    pose proof (Hrange t1) as [Hp _]; rewrite Hpower in Hp; cbn in Hp end.
  match type of Hmem with nvml_GetMemoryInfo _ ?t2 _ = _ =>
    pose proof (Hrange t2) as [_ [Htot Hused]]; rewrite Hmem in Htot, Hused;
    cbn in Htot, Hused end.
  repeat split.
  - apply watts_finite. apply N.lt_trans with (1 := Hp). reflexivity.
  - now apply gigabytes_finite.
  - now apply gigabytes_finite.
Qed.

(** so that its serialization cannot fail. *)
Lemma serialization_succeeds_in_range lib tags d h :
  Handle d = Some h ->
  readings_in_range lib h ->
  serialization_succeeds lib tags d.
Proof.
  intros Hh Hrange t m t' Hm.
  destruct (GetMetrics_record_finite lib d h t m t' Hh Hrange Hm) as [Hp [Ht Hu]].
  unfold json_Marshal, json_float_error. now rewrite Hp, Ht, Hu.
Qed.

(** ** Rendering a record as text *)

Lemma has_char_append c s1 s2 :
  has_char c (s1 ++ s2)%string = has_char c s1 || has_char c s2.
Proof.
  induction s1 as [|a s1 IH]; cbn; [reflexivity|].
  now rewrite IH, orb_assoc.
Qed.

Lemma all_digits_append s1 s2 :
  all_digits (s1 ++ s2)%string = all_digits s1 && all_digits s2.
Proof.
  induction s1 as [|a s1 IH]; cbn; [reflexivity|].
  now rewrite IH, andb_assoc.
Qed.

Lemma length_append s1 s2 :
  String.length (s1 ++ s2)%string = (String.length s1 + String.length s2)%nat.
Proof. induction s1 as [|a s1 IH]; cbn; [reflexivity|]. now rewrite IH. Qed.

Lemma all_digits_no_char c s :
  is_digit c = false -> all_digits s = true -> has_char c s = false.
Proof.
  intros Hc. induction s as [|a s IH]; cbn; [reflexivity|].
  intros [Ha Hs]%andb_true_iff. rewrite (IH Hs), orb_false_r.
  destruct (Ascii.eqb_spec a c) as [->|]; [congruence|reflexivity].
Qed.

Lemma split_on_no_char c s : has_char c s = false -> split_on c s = [s].
Proof.
  induction s as [|a s IH]; cbn; [reflexivity|].
  intros [Ha Hs]%orb_false_iff. now rewrite Ha, (IH Hs).
Qed.

Lemma split_on_append c s1 s2 :
  has_char c s1 = false ->
  split_on c (s1 ++ String c s2)%string = s1 :: split_on c s2.
Proof.
  induction s1 as [|a s1 IH]; cbn.
  - intros _. now rewrite Ascii.eqb_refl.
  - intros [Ha Hs]%orb_false_iff. now rewrite Ha, (IH Hs).
Qed.

Lemma uint_all_digits d : all_digits (NilEmpty.string_of_uint d) = true.
Proof. induction d; cbn; auto. Qed.

Lemma fmt_d_all_digits n : all_digits (fmt_d n) = true.
Proof.
  unfold fmt_d, NilZero.string_of_uint.
  destruct (N.to_uint n) eqn:E; try reflexivity; rewrite <- E; apply uint_all_digits.
Qed.

Lemma fmt_d_not_empty n : String.eqb (fmt_d n) "" = false.
Proof.
  unfold fmt_d, NilZero.string_of_uint.
  destruct (N.to_uint n); reflexivity.
Qed.

Lemma digit_char_is_digit d : is_digit (digit_char d) = true.
Proof.
  unfold digit_char.
  pose proof (Z.mod_pos_bound d 10 ltac:(lia)) as Hr.
  assert (Hcases : d mod 10 = 0 \/ d mod 10 = 1 \/ d mod 10 = 2 \/ d mod 10 = 3
                   \/ d mod 10 = 4 \/ d mod 10 = 5 \/ d mod 10 = 6 \/ d mod 10 = 7
                   \/ d mod 10 = 8 \/ d mod 10 = 9) by lia.
  repeat (destruct Hcases as [->|Hcases]; [reflexivity|]).
  now rewrite Hcases.
Qed.

Lemma frac_digits_all_digits p n : all_digits (frac_digits p n) = true.
Proof.
  revert n. induction p as [|p IH]; intros n; cbn; [reflexivity|].
  rewrite all_digits_append, IH. cbn. now rewrite digit_char_is_digit.
Qed.

Lemma frac_digits_length p n : String.length (frac_digits p n) = p.
Proof.
  revert n. induction p as [|p IH]; intros n; cbn; [reflexivity|].
  rewrite length_append, IH. cbn. lia.
Qed.

Lemma strip_sign_fmt_fixed p neg n :
  strip_sign (fmt_fixed (S p) neg n) =
    (fmt_d (Z.to_N (n / 10 ^ Z.of_nat (S p))) ++ "." ++ frac_digits (S p) n)%string.
Proof.
  unfold fmt_fixed. destruct neg; [reflexivity|].
  change ("" ++ ?s)%string with s.
  pose proof (fmt_d_all_digits (Z.to_N (n / 10 ^ Z.of_nat (S p)))) as Hd.
  pose proof (fmt_d_not_empty (Z.to_N (n / 10 ^ Z.of_nat (S p)))) as Hne.
  destruct (fmt_d (Z.to_N (n / 10 ^ Z.of_nat (S p)))) as [|a s]; [discriminate|].
  cbn in Hd. apply andb_true_iff in Hd as [Ha _].
  cbn [append strip_sign].
  destruct (Ascii.eqb_spec a "-") as [->|]; [discriminate|reflexivity].
Qed.

Lemma fmt_fixed_places p neg n :
  fixed_point_places (fmt_fixed (S p) neg n) = Some (S p).
Proof.
  unfold fixed_point_places. rewrite strip_sign_fmt_fixed.
  change ("." ++ ?s)%string with (String "." s).
  rewrite split_on_append
    by (apply all_digits_no_char; [reflexivity|apply fmt_d_all_digits]).
  rewrite split_on_no_char
    by (apply all_digits_no_char; [reflexivity|apply frac_digits_all_digits]).
  rewrite fmt_d_not_empty, fmt_d_all_digits, frac_digits_all_digits.
  cbn [negb andb]. now rewrite frac_digits_length.
Qed.

Lemma fmt_f_places p x : rendered_places (S p) x.
Proof.
  destruct x as [s|s| |s m e]; cbn.
  - apply fmt_fixed_places.
  - now destruct s.
  - reflexivity.
  - apply fmt_fixed_places.
Qed.

Lemma fmt_fixed_no_comma p neg n : has_char "," (fmt_fixed p neg n) = false.
Proof.
  unfold fmt_fixed. rewrite !has_char_append.
  rewrite (all_digits_no_char "," (fmt_d _))
    by (reflexivity || apply fmt_d_all_digits).
  destruct p as [|p].
  - now destruct neg.
  - rewrite has_char_append.
    rewrite (all_digits_no_char "," (frac_digits _ _))
      by (reflexivity || apply frac_digits_all_digits).
    now destruct neg.
Qed.

Lemma fmt_f_no_comma p x : has_char "," (fmt_f p x) = false.
Proof.
  destruct x as [s|s| |s m e]; cbn.
  - apply fmt_fixed_no_comma.
  - now destruct s.
  - reflexivity.
  - apply fmt_fixed_no_comma.
Qed.

Lemma fmt_d_no_comma n : has_char "," (fmt_d n) = false.
Proof. apply all_digits_no_char; [reflexivity|apply fmt_d_all_digits]. Qed.

(** The text of a record sampled from readings that fit their types
    has two, one and two decimal places. *)
Lemma GetMetrics_record_text lib d h t m t' :
  Handle d = Some h ->
  readings_in_range lib h ->
  GetMetrics lib d t = (Returned (m, None), t') ->
  fixed_point_places (fmt_f 2 (Power m)) = Some 2%nat
  /\ fixed_point_places (fmt_f 1 (MemoryTotal m)) = Some 1%nat
  /\ fixed_point_places (fmt_f 2 (MemoryUsed m)) = Some 2%nat.
Proof.
  intros Hh Hrange Hm.
  destruct (GetMetrics_record_finite lib d h t m t' Hh Hrange Hm) as [Hp [Ht Hu]].
  pose proof (fmt_f_places 1 (Power m)) as Rp.
  pose proof (fmt_f_places 0 (MemoryTotal m)) as Rt.
  pose proof (fmt_f_places 1 (MemoryUsed m)) as Ru.
  destruct (Power m), (MemoryTotal m), (MemoryUsed m);
    try discriminate; repeat split; assumption.
Qed.

(** C10, as amended: cut at its commas, the text of a record is
    exactly five fields: temperature, power, GPU usage, total memory,
    used memory, in that order.  Temperature and GPU usage are plain
    decimal numerals.  Power and used memory are written by [%.2f] and
    total memory by [%.1f]: a field that is a finite number comes out
    with exactly two, respectively one, decimal places; a field that is
    not comes out as [NaN], [+Inf] or [-Inf]. *)
Theorem Metrics_String_format m :
  split_on "," (Metrics_String m) =
    [ fmt_d (Temperature m); fmt_f 2 (Power m); fmt_d (GpuUsage m);
      fmt_f 1 (MemoryTotal m); fmt_f 2 (MemoryUsed m) ]
  /\ all_digits (fmt_d (Temperature m)) = true
  /\ all_digits (fmt_d (GpuUsage m)) = true
  /\ rendered_places 2 (Power m)
  /\ rendered_places 1 (MemoryTotal m)
  /\ rendered_places 2 (MemoryUsed m).
Proof.
  repeat split; try apply fmt_d_all_digits; try apply fmt_f_places.
  unfold Metrics_String.
  repeat progress change ("," ++ ?s)%string with (String "," s).
  rewrite split_on_append by apply fmt_d_no_comma.
  rewrite split_on_append by apply fmt_f_no_comma.
  rewrite split_on_append by apply fmt_d_no_comma.
  rewrite split_on_append by apply fmt_f_no_comma.
  now rewrite split_on_no_char by apply fmt_f_no_comma.
Qed.

Example Metrics_String_steady :
  Metrics_String {| Temperature := 61; Power := f32_of_Z 128; GpuUsage := 93;
                    MemoryTotal := f32_of_Z 16; MemoryUsed := f32_of_Z 4 |}
  = "61,128.00,93,16.0,4.00".
Proof. reflexivity. Qed.

(** The claim as it is worded does not hold of every record: a power
    that is not a number is written [NaN] and the infinities [+Inf] and
    [-Inf], none of them with two decimal places or one. *)
Lemma Metrics_String_not_a_number :
  Metrics_String not_a_number_metrics = "1,NaN,2,+Inf,-Inf"
  /\ ~ (exists power total used,
          split_on "," (Metrics_String not_a_number_metrics)
            = [fmt_d (Temperature not_a_number_metrics); power;
               fmt_d (GpuUsage not_a_number_metrics); total; used]
          /\ fixed_point_places power = Some 2%nat
          /\ fixed_point_places total = Some 1%nat
          /\ fixed_point_places used = Some 2%nat).
Proof.
  split; [reflexivity|].
  intros [power [total [used [Hsplit [Hpower _]]]]].
  cbv in Hsplit. injection Hsplit as <- _ _.
  discriminate Hpower.
Qed.

(** ** Serialization to JSON *)

(** In [main.go] the object has the five members of the specification,
    carrying the five values of the record. *)
Lemma json_Marshal_main_go_fields m j :
  json_Marshal main_go_tags m = (j, None) ->
  map fst j = ["temperature"; "power"; "gpu_usage"; "memory_total"; "memory_used"]
  /\ map snd j = [ JUint (Temperature m); JFloat32 (Power m); JUint (GpuUsage m);
                   JFloat32 (MemoryTotal m); JFloat32 (MemoryUsed m) ].
Proof.
  unfold json_Marshal.
  destruct (json_float_error (Power m)); [discriminate|].
  destruct (json_float_error (MemoryTotal m)); [discriminate|].
  destruct (json_float_error (MemoryUsed m)); [discriminate|].
  intros [= <-]. split; reflexivity.
Qed.

(** In the baseline program the last member is named differently. *)
Lemma json_Marshal_baseline_fields m j :
  json_Marshal baseline_tags m = (j, None) ->
  map fst j = ["temperature"; "power"; "gpu_usage"; "memory_total"; "memory_available"]
  /\ map snd j = [ JUint (Temperature m); JFloat32 (Power m); JUint (GpuUsage m);
                   JFloat32 (MemoryTotal m); JFloat32 (MemoryUsed m) ].
Proof.
  unfold json_Marshal.
  destruct (json_float_error (Power m)); [discriminate|].
  destruct (json_float_error (MemoryTotal m)); [discriminate|].
  destruct (json_float_error (MemoryUsed m)); [discriminate|].
  intros [= <-]. split; reflexivity.
Qed.

(** C2, at the input on which it fails.  One pass of the loop of the
    baseline program on the steady machine prints an object whose fifth
    member is named [memory_available], not [memory_used]; the value it
    carries is the used memory (4 GiB of 16). *)
Theorem baseline_loop_emits_memory_available :
  loop_body steady_lib baseline_tags steady_device [] =
    (Returned tt,
     sample_events 7%N ++
     [ Println [ ("temperature", JUint 61);
                 ("power", JFloat32 (f32_of_Z 128));
                 ("gpu_usage", JUint 93);
                 ("memory_total", JFloat32 (f32_of_Z 16));
                 ("memory_available", JFloat32 (f32_of_Z 4)) ];
       Sleep 5000000000 ]).
Proof. reflexivity. Qed.

(** The same pass in [main.go]. *)
Example main_go_loop_emits_memory_used :
  loop_body steady_lib main_go_tags steady_device [] =
    (Returned tt,
     sample_events 7%N ++
     [ Println [ ("temperature", JUint 61);
                 ("power", JFloat32 (f32_of_Z 128));
                 ("gpu_usage", JUint 93);
                 ("memory_total", JFloat32 (f32_of_Z 16));
                 ("memory_used", JFloat32 (f32_of_Z 4)) ];
       Sleep 5000000000 ]).
Proof. reflexivity. Qed.

(** ** The sampling loop *)

Lemma GetMetrics_normal lib d h t :
  Handle d = Some h ->
  reads_succeed lib h ->
  exists m, GetMetrics lib d t = (Returned (m, None), t ++ sample_events h).
Proof.
  intros Hh Hok.
  destruct (nvml_GetTemperature lib t h TEMPERATURE_GPU) as [temp r1] eqn:H1.
  pose proof (Hok t) as [E1 _]. rewrite H1 in E1. cbn in E1. subst r1.
  set (t1 := t ++ [Nvml (HandleGetTemperature h TEMPERATURE_GPU) SUCCESS]).
  destruct (nvml_GetPowerUsage lib t1 h) as [power r2] eqn:H2.
  pose proof (Hok t1) as [_ [E2 _]]. rewrite H2 in E2. cbn in E2. subst r2.
  set (t2 := t1 ++ [Nvml (HandleGetPowerUsage h) SUCCESS]).
  destruct (nvml_GetMemoryInfo lib t2 h) as [memory r3] eqn:H3.
  pose proof (Hok t2) as [_ [_ [E3 _]]]. rewrite H3 in E3. cbn in E3. subst r3.
  set (t3 := t2 ++ [Nvml (HandleGetMemoryInfo h) SUCCESS]).
  destruct (nvml_GetUtilizationRates lib t3 h) as [util r4] eqn:H4.
  pose proof (Hok t3) as [_ [_ [_ E4]]]. rewrite H4 in E4. cbn in E4. subst r4.
  eexists. exact (GetMetrics_all_reads_succeed lib d h t temp power memory util
                    Hh H1 H2 H3 H4).
Qed.

(** Under normal operation one pass samples the device once, prints one
    object and then sleeps for five seconds. *)
Lemma loop_body_normal lib tags d h t :
  Handle d = Some h ->
  reads_succeed lib h ->
  serialization_succeeds lib tags d ->
  exists j, loop_body lib tags d t = (Returned tt, t ++ pass_events h j).
Proof.
  intros Hh Hok Hser.
  destruct (GetMetrics_normal lib d h t Hh Hok) as [m Hm].
  pose proof (Hser t m _ Hm) as Hj.
  unfold loop_body, bind. rewrite Hm.
  destruct (json_Marshal tags m) as [j e]. cbn in Hj. subst e.
  exists j. unfold fmt_Println, time_Sleep, emit, pass_events.
  now rewrite snoc_snoc, <- app_assoc.
Qed.

(** Passes that each complete follow one another without end. *)
Lemma sampling_loop_passes lib tags d h n :
  (forall t, exists j, loop_body lib tags d t = (Returned tt, t ++ pass_events h j)) ->
  forall t,
  exists js,
    List.length js = n
    /\ sampling_loop lib tags n d t = (Returned tt, t ++ flat_map (pass_events h) js).
Proof.
  intros Hpass.
  induction n as [|n IH]; intros t.
  - exists []. split; [reflexivity|]. cbn. now rewrite app_nil_r.
  - destruct (Hpass t) as [j Hj].
    destruct (IH (t ++ pass_events h j)) as [js [Hlen Hjs]].
    exists (j :: js). split; [cbn; now rewrite Hlen|].
    cbn [sampling_loop flat_map]. unfold bind. rewrite Hj, Hjs.
    now rewrite <- app_assoc.
Qed.


(** X17: with readings that fit their Go types, successful reads are all
    that normal operation asks for: serialization cannot fail, so for
    every [n] the first [n] passes complete, each leaving one sample,
    one printed record and one sleep of five seconds. *)
Lemma sampling_loop_in_range lib tags d h n t :
  Handle d = Some h ->
  reads_succeed lib h ->
  readings_in_range lib h ->
  exists js,
    List.length js = n
    /\ sampling_loop lib tags n d t = (Returned tt, t ++ flat_map (pass_events h) js).
Proof.
  intros Hh Hok Hrange. apply sampling_loop_passes.
  intros t0. apply loop_body_normal; [assumption|assumption|].
  now apply (serialization_succeeds_in_range lib tags d h).
Qed.

Lemma steady_reads_succeed : reads_succeed steady_lib 7%N.
Proof. intros t. repeat split. Qed.



(** A failing read ends the loop: the process exits without printing. *)
Lemma loop_body_failed_read lib tags d h t out new :
  Handle d = Some h ->
  loop_body lib tags d t = (out, t ++ new) ->
  existsb failed_read new = true ->
  out = Exited 1 /\ forall j, ~ In (Println j) new.
Proof.
  intros Hh Hrun Hfail.
  destruct (GetMetrics_returns lib d h t Hh) as [m [err [new' [Hm [Herr Hzero]]]]].
  unfold loop_body, bind in Hrun. rewrite Hm in Hrun.
  destruct err as [e|].
  - unfold log_Fatalf in Hrun. injection Hrun as <- Ht.
    rewrite <- app_assoc in Ht. apply app_inv_head in Ht. subst new.
    split; [reflexivity|]. intros j [Hin|[Hin|[]]]%in_app_or; [|discriminate].
    assert (Hreads : forall l, GetMetrics lib d t = (Returned (m, Some e), t ++ l) ->
                               forall j, ~ In (Println j) l).
    { clear. intros l. run_go. destruct (Handle d) as [h|]; [|discriminate].
      destruct (nvml_GetTemperature lib t h TEMPERATURE_GPU) as [temp r1]. cbn.
      destruct (is_success r1); cbn.
      2:{ intros [= _ _ Ht]. trace_tail Ht. intros j [|[]]; discriminate. }
      destruct (nvml_GetPowerUsage lib _ h) as [power r2]. cbn.
      destruct (is_success r2); cbn.
      2:{ intros [= _ _ Ht]. trace_tail Ht. intros j [|[|[]]]; discriminate. }
      destruct (nvml_GetMemoryInfo lib _ h) as [memory r3]. cbn.
      destruct (is_success r3); cbn.
      2:{ intros [= _ _ Ht]. trace_tail Ht. intros j [|[|[|[]]]]; discriminate. }
      destruct (nvml_GetUtilizationRates lib _ h) as [util r4]. cbn.
      destruct (is_success r4); cbn; [discriminate|].
      intros [= _ _ Ht]. trace_tail Ht. intros j [|[|[|[|[]]]]]; discriminate. }
    exact (Hreads new' Hm j Hin).
  - exfalso. destruct Herr as [Herr _]. specialize (Herr eq_refl).
    destruct (json_Marshal tags m) as [j [e|]].
    + unfold log_Fatalf in Hrun. injection Hrun as _ Ht.
      rewrite <- app_assoc in Ht. apply app_inv_head in Ht. subst new.
      rewrite existsb_app, Herr in Hfail. discriminate.
    + unfold fmt_Println, time_Sleep, emit, bind in Hrun. injection Hrun as _ Ht.
      rewrite snoc_snoc, <- app_assoc in Ht. apply app_inv_head in Ht. subst new.
      rewrite existsb_app, Herr in Hfail. discriminate.
Qed.

Lemma sampling_loop_in_range_witness :
  exists js,
    List.length js = 4%nat
    /\ sampling_loop steady_lib baseline_tags 4 steady_device [] =
         (Returned tt, [] ++ flat_map (pass_events 7%N) js).
Proof.
  apply (sampling_loop_in_range steady_lib baseline_tags steady_device 7%N 4 []
           eq_refl).
  - exact steady_reads_succeed.
  - intros t. repeat split.
Defined.

(** ** The CloudWatch sink *)

(** C5: the sink builds four metric data, named for GPU usage, memory
    used, temperature and power and carrying those four values of the
    record; every one of them has the same two instance dimensions and
    the storage resolution that was passed in; all four go out in one
    [PutMetricData] call, the only effect of the function. *)
Theorem PublishCloudwatchMetrics_one_batch
    m client instanceID instanceType resolution namespace t :
  exists input err out,
    PublishCloudwatchMetrics m client instanceID instanceType resolution namespace t
      = (Returned out, t ++ [PutMetricData input err])
    /\ Namespace input = namespace
    /\ map MetricName (MetricData input) =
         ["GPU Usage"; "Memory Used"; "Temperature (C)"; "Power (W)"]
    /\ map DatumValue (MetricData input) =
         [ f64_of_N (GpuUsage m); f64_of_f32 (MemoryUsed m);
           f64_of_N (Temperature m); f64_of_f32 (Power m) ]
    /\ Forall (fun datum =>
                 Dimensions datum =
                   [ {| Name := "InstancesId"; Value := instanceID |};
                     {| Name := "InstanceType"; Value := instanceType |} ]
                 /\ StorageResolution datum = resolution)
              (MetricData input).
Proof.
  unfold PublishCloudwatchMetrics, call_PutMetricData, bind, pure.
  match goal with
  | |- context [client t ?i] => destruct (client t i) as [e|] eqn:Herr
  end.
  all: eexists _, _, _; split; [reflexivity|]; cbn;
    repeat split; repeat constructor.
Qed.

(** C6: the sink makes the call once.  When the call fails, the sink
    returns an error whose message is the fixed prefix followed by the
    message of the failure; when the call succeeds it returns nil.  In
    both cases the call is the only event: it is not repeated. *)
Theorem PublishCloudwatchMetrics_error_no_retry
    m client instanceID instanceType resolution namespace t :
  exists input out,
    PublishCloudwatchMetrics m client instanceID instanceType resolution namespace t
      = (Returned out, t ++ [PutMetricData input (client t input)])
    /\ (forall e, client t input = Some e ->
                  out = Some ("Unable to publish metrics to CloudWatch: " ++ e)%string)
    /\ (client t input = None -> out = None).
Proof.
  unfold PublishCloudwatchMetrics, call_PutMetricData, bind, pure.
  match goal with
  | |- context [client t ?i] => destruct (client t i) as [e|] eqn:Herr
  end.
  - eexists _, _. split; [rewrite Herr; reflexivity|]. rewrite Herr.
    split; [intros e' [= <-]; reflexivity|discriminate].
  - eexists _, _. split; [rewrite Herr; reflexivity|]. rewrite Herr.
    split; [discriminate|reflexivity].
Qed.

(** A client that is refused by the service, and one that is accepted. *)
Example PublishCloudwatchMetrics_refused :
  fst (PublishCloudwatchMetrics steady_metrics (fun _ _ => Some "AccessDenied")
         "i-0abc" "g4dn.xlarge" 60 "GPU" [])
  = Returned (Some "Unable to publish metrics to CloudWatch: AccessDenied").
Proof. reflexivity. Qed.

Example PublishCloudwatchMetrics_accepted :
  fst (PublishCloudwatchMetrics steady_metrics (fun _ _ => None)
         "i-0abc" "g4dn.xlarge" 60 "GPU" [])
  = Returned None.
Proof. reflexivity. Qed.

(** * Further properties of the code *)

(** ** [GetDevice], case by case *)

(** [GetDevice] written out as one nest of cases. *)
Lemma GetDevice_unfold lib index t :
  GetDevice lib index t =
  (let '(count, r0) := nvml_DeviceGetCount lib t in
  let t1 := t ++ [Nvml DeviceGetCount r0] in
  if negb (is_success r0)
  then (Exited 1,
        t1 ++ [LogFatalf ("Unable to get device count: " ++ nvml_ErrorString lib r0)%string])
  else if count <=? int_sub index 1
  then (Exited 1, t1 ++ [LogFatalf "Device index out of range"])
  else
    let '(device, r1) := nvml_DeviceGetHandleByIndex lib t1 index in
    let t2 := t1 ++ [Nvml (DeviceGetHandleByIndex index) r1] in
    if negb (is_success r1)
    then (Returned (Device_zero,
                    Some ("unable to get device at index " ++ fmt_d_int index ++ ": "
                          ++ nvml_ErrorString lib r1)%string), t2)
    else
      match device with
      | None => (Panicked, t2)
      | Some h =>
          let '(uuid, r2) := nvml_GetUUID lib t2 h in
          let t3 := t2 ++ [Nvml (GetUUID h) r2] in
          if negb (is_success r2)
          then (Returned (Device_zero,
                          Some ("unable to get uuid of device at index "
                                ++ fmt_d_int index ++ ": "
                                ++ nvml_ErrorString lib r2)%string), t3)
          else (Returned ({| Index := index; UUID := uuid; Handle := Some h |}, None), t3)
      end).
Proof.
  run_go.
  destruct (nvml_DeviceGetCount lib t) as [count r0]. cbn.
  destruct (is_success r0); cbn; [|reflexivity].
  destruct (count <=? int_sub index 1); cbn; [reflexivity|].
  destruct (nvml_DeviceGetHandleByIndex lib _ index) as [device r1]. cbn.
  destruct (is_success r1); cbn; [|reflexivity].
  destruct device as [h|]; cbn; [|reflexivity].
  destruct (nvml_GetUUID lib _ h) as [uuid r2]. cbn.
  destruct (is_success r2); reflexivity.
Qed.

Lemma int_sub_min_int : int_sub (- 2 ^ 63) 1 = 2 ^ 63 - 1.
Proof. reflexivity. Qed.

(** X1: an index above the device count is refused right after the
    count has been read, with "Device index out of range" and exit
    status 1; no handle is asked for.  The smallest [int] is refused as
    well, whatever the count, because [index - 1] wraps around. *)
Theorem GetDevice_refuses_above_count lib index t count :
  in_int index -> in_int count ->
  nvml_DeviceGetCount lib t = (count, SUCCESS) ->
  count < index \/ index = - 2 ^ 63 ->
  GetDevice lib index t =
    (Exited 1,
     t ++ [Nvml DeviceGetCount SUCCESS; LogFatalf "Device index out of range"]).
Proof.
  intros Hi Hc Hcount [Hlt| ->].
  - now apply (GetDevice_beyond_count lib index t count).
  - rewrite GetDevice_unfold. rewrite Hcount.
    change (negb (is_success SUCCESS)) with false. cbv beta iota zeta.
    rewrite int_sub_min_int.
    destruct (Z.leb_spec count (2 ^ 63 - 1)) as [_|Hgt].
    + now rewrite snoc_snoc.
    + unfold in_int in Hc. lia.
Qed.

Lemma GetDevice_refuses_above_count_witness :
  GetDevice steady_lib 2 [] =
    (Exited 1, [Nvml DeviceGetCount SUCCESS; LogFatalf "Device index out of range"])
  /\ GetDevice steady_lib (- 2 ^ 63) [] =
    (Exited 1, [Nvml DeviceGetCount SUCCESS; LogFatalf "Device index out of range"]).
Proof.
  split.
  - apply (GetDevice_refuses_above_count steady_lib 2 [] 1); try reflexivity.
    + unfold in_int. int_consts. lia.
    + unfold in_int. int_consts. lia.
    + left. lia.
  - apply (GetDevice_refuses_above_count steady_lib (- 2 ^ 63) [] 1); try reflexivity.
    + unfold in_int. int_consts. lia.
    + unfold in_int. int_consts. lia.
    + right. reflexivity.
Defined.

(** X2: every other index passes the range check, whether it is below
    zero or equal to the count: the library is asked for the handle of
    that very index, and nothing is logged as fatal afterwards. *)
Theorem GetDevice_looks_up_to_count lib index t count :
  in_int index -> in_int count ->
  nvml_DeviceGetCount lib t = (count, SUCCESS) ->
  - 2 ^ 63 < index <= count ->
  exists out r rest,
    GetDevice lib index t =
      (out, t ++ [Nvml DeviceGetCount SUCCESS;
                  Nvml (DeviceGetHandleByIndex index) r] ++ rest)
    /\ existsb is_LogFatalf rest = false.
Proof.
  intros Hi Hc Hcount [Hlo Hhi].
  rewrite GetDevice_unfold. rewrite Hcount.
  change (negb (is_success SUCCESS)) with false. cbv beta iota zeta.
  assert (Hsub : (count <=? int_sub index 1) = false).
  { apply Z.leb_gt. unfold int_sub. rewrite int_wrap_small; [lia|].
    unfold in_int in *. lia. }
  rewrite Hsub.
  destruct (nvml_DeviceGetHandleByIndex lib _ index) as [device r].
  cbv beta iota zeta.
  destruct (negb (is_success r)).
  - eexists _, r, []. rewrite snoc_snoc. split; reflexivity.
  - destruct device as [h|].
    + destruct (nvml_GetUUID lib _ h) as [uuid r2]. cbv beta iota zeta.
      destruct (negb (is_success r2));
        eexists _, r, [_]; rewrite snoc_snoc, snoc_app; split; reflexivity.
    + eexists _, r, []. rewrite snoc_snoc. split; reflexivity.
Qed.

Lemma GetDevice_looks_up_to_count_witness :
  exists out r rest,
    GetDevice steady_lib (-1) [] =
      (out, [] ++ [Nvml DeviceGetCount SUCCESS;
                   Nvml (DeviceGetHandleByIndex (-1)) r] ++ rest)
    /\ existsb is_LogFatalf rest = false.
Proof.
  apply (GetDevice_looks_up_to_count steady_lib (-1) [] 1); try reflexivity.
  - unfold in_int. int_consts. lia.
  - unfold in_int. int_consts. lia.
  - int_consts. lia.
Defined.

(** X3: when the device count cannot be read the process exits with
    status 1, whatever the index: the message names the library's error
    string, and neither the range check nor any other library call
    follows. *)
Theorem GetDevice_count_failure lib index t count ret :
  nvml_DeviceGetCount lib t = (count, ret) ->
  ret <> SUCCESS ->
  GetDevice lib index t =
    (Exited 1,
     t ++ [ Nvml DeviceGetCount ret;
            LogFatalf ("Unable to get device count: " ++ nvml_ErrorString lib ret)%string ]).
Proof.
  intros Hcount Hret.
  rewrite GetDevice_unfold. rewrite Hcount. cbv beta iota zeta.
  rewrite (is_success_false ret Hret). cbn [negb]. now rewrite snoc_snoc.
Qed.

Lemma GetDevice_count_failure_witness :
  GetDevice no_driver_lib 0 [] =
    (Exited 1,
     [Nvml DeviceGetCount 9; LogFatalf "Unable to get device count: Driver Not Loaded"]).
Proof.
  apply (GetDevice_count_failure no_driver_lib 0 [] 0 9 eq_refl). discriminate.
Defined.

(** X4: when the library cannot resolve the handle, [GetDevice] returns
    the zero [Device] and an error that names the index and the
    library's error string; the identifier is not asked for. *)
Theorem GetDevice_handle_failure lib index t count device ret :
  nvml_DeviceGetCount lib t = (count, SUCCESS) ->
  (count <=? int_sub index 1) = false ->
  nvml_DeviceGetHandleByIndex lib (t ++ [Nvml DeviceGetCount SUCCESS]) index
    = (device, ret) ->
  ret <> SUCCESS ->
  GetDevice lib index t =
    (Returned (Device_zero,
               Some ("unable to get device at index " ++ fmt_d_int index ++ ": "
                     ++ nvml_ErrorString lib ret)%string),
     t ++ [Nvml DeviceGetCount SUCCESS; Nvml (DeviceGetHandleByIndex index) ret]).
Proof.
  intros Hcount Hrange Hdev Hret.
  rewrite GetDevice_unfold. rewrite Hcount.
  change (negb (is_success SUCCESS)) with false. cbv beta iota zeta.
  rewrite Hrange, Hdev. cbv beta iota zeta.
  rewrite (is_success_false ret Hret). cbn [negb].
  now rewrite snoc_snoc.
Qed.

Lemma GetDevice_handle_failure_witness :
  GetDevice steady_lib (-3) [] =
    (Returned (Device_zero, Some "unable to get device at index -3: Invalid Argument"),
     [Nvml DeviceGetCount SUCCESS; Nvml (DeviceGetHandleByIndex (-3)) 2]).
Proof.
  apply (GetDevice_handle_failure steady_lib (-3) [] 1 None 2 eq_refl eq_refl eq_refl).
  discriminate.
Defined.

(** X5: when the handle is resolved but its identifier cannot be read,
    [GetDevice] returns the zero [Device], not the handle it holds, and
    an error that names the index and the library's error string. *)
Theorem GetDevice_uuid_failure lib index t count h uuid ret :
  nvml_DeviceGetCount lib t = (count, SUCCESS) ->
  (count <=? int_sub index 1) = false ->
  let t1 := t ++ [Nvml DeviceGetCount SUCCESS] in
  nvml_DeviceGetHandleByIndex lib t1 index = (Some h, SUCCESS) ->
  let t2 := t1 ++ [Nvml (DeviceGetHandleByIndex index) SUCCESS] in
  nvml_GetUUID lib t2 h = (uuid, ret) ->
  ret <> SUCCESS ->
  GetDevice lib index t =
    (Returned (Device_zero,
               Some ("unable to get uuid of device at index " ++ fmt_d_int index ++ ": "
                     ++ nvml_ErrorString lib ret)%string),
     t2 ++ [Nvml (GetUUID h) ret]).
Proof.
  intros Hcount Hrange t1 Hdev t2 Huuid Hret. subst t1 t2.
  rewrite GetDevice_unfold. rewrite Hcount.
  change (negb (is_success SUCCESS)) with false. cbv beta iota zeta.
  rewrite Hrange, Hdev.
  change (negb (is_success SUCCESS)) with false. cbv beta iota zeta.
  now rewrite Huuid, (is_success_false ret Hret).
Qed.

Lemma GetDevice_uuid_failure_witness :
  GetDevice uuid_fails_lib 0 [] =
    (Returned (Device_zero, Some "unable to get uuid of device at index 0: Unknown Error"),
     [Nvml DeviceGetCount SUCCESS; Nvml (DeviceGetHandleByIndex 0) SUCCESS;
      Nvml (GetUUID 7%N) 999]).
Proof.
  apply (GetDevice_uuid_failure uuid_fails_lib 0 [] 1 7%N "" 999
           eq_refl eq_refl eq_refl eq_refl).
  discriminate.
Defined.

(** X7: whatever the library answers, [GetDevice] makes no telemetry
    read, and it leaves at most three events behind: the count, the
    handle and the identifier, or fewer and a fatal message. *)
Theorem GetDevice_never_reads lib index t :
  exists out new,
    GetDevice lib index t = (out, t ++ new)
    /\ existsb is_read_event new = false
    /\ (List.length new <= 3)%nat.
Proof.
  rewrite GetDevice_unfold.
  destruct (nvml_DeviceGetCount lib t) as [count r0]. cbv beta iota zeta.
  destruct (negb (is_success r0)).
  { eexists _, [_; _]. rewrite snoc_snoc. repeat split. cbn. lia. }
  destruct (count <=? int_sub index 1).
  { eexists _, [_; _]. rewrite snoc_snoc. repeat split. cbn. lia. }
  destruct (nvml_DeviceGetHandleByIndex lib _ index) as [device r1]. cbv beta iota zeta.
  destruct (negb (is_success r1)).
  { eexists _, [_; _]. rewrite snoc_snoc. repeat split. cbn. lia. }
  destruct device as [h|].
  2:{ eexists _, [_; _]. rewrite snoc_snoc. repeat split. cbn. lia. }
  destruct (nvml_GetUUID lib _ h) as [uuid r2]. cbv beta iota zeta.
  destruct (negb (is_success r2));
    eexists _, [_; _; _]; rewrite snoc_snoc, snoc_app; repeat split; cbn; lia.
Qed.

(** ** [GetMetrics], read by read *)

(** [GetMetrics] on a device with a handle, written out as one nest of
    cases. *)
Lemma GetMetrics_unfold lib d h t :
  Handle d = Some h ->
  GetMetrics lib d t =
  (let '(temp, r1) := nvml_GetTemperature lib t h TEMPERATURE_GPU in
   let t1 := t ++ [Nvml (HandleGetTemperature h TEMPERATURE_GPU) r1] in
   if negb (is_success r1)
   then (Returned (Metrics_zero, Some (nvml_ErrorString lib r1)), t1)
   else
     let '(power, r2) := nvml_GetPowerUsage lib t1 h in
     let t2 := t1 ++ [Nvml (HandleGetPowerUsage h) r2] in
     if negb (is_success r2)
     then (Returned (Metrics_zero, Some (nvml_ErrorString lib r2)), t2)
     else
       let '(memory, r3) := nvml_GetMemoryInfo lib t2 h in
       let t3 := t2 ++ [Nvml (HandleGetMemoryInfo h) r3] in
       if negb (is_success r3)
       then (Returned (Metrics_zero, Some (nvml_ErrorString lib r3)), t3)
       else
         let '(util, r4) := nvml_GetUtilizationRates lib t3 h in
         let t4 := t3 ++ [Nvml (HandleGetUtilizationRates h) r4] in
         if negb (is_success r4)
         then (Returned (Metrics_zero, Some (nvml_ErrorString lib r4)), t4)
         else (Returned
                 ({| Temperature := temp;
                     Power := f32_div (f32_of_N power) (f32_of_Z 1000);
                     GpuUsage := Gpu util;
                     MemoryTotal :=
                       f32_div (f32_of_N (Total memory)) (f32_of_Z (2 ^ 30));
                     MemoryUsed :=
                       f32_div (f32_of_N (Used memory)) (f32_of_Z (2 ^ 30)) |},
                  None), t4)).
Proof.
  intros Hh. run_go. rewrite Hh.
  destruct (nvml_GetTemperature lib t h TEMPERATURE_GPU) as [temp r1]. cbn.
  destruct (is_success r1); cbn; [|reflexivity].
  destruct (nvml_GetPowerUsage lib _ h) as [power r2]. cbn.
  destruct (is_success r2); cbn; [|reflexivity].
  destruct (nvml_GetMemoryInfo lib _ h) as [memory r3]. cbn.
  destruct (is_success r3); cbn; [|reflexivity].
  destruct (nvml_GetUtilizationRates lib _ h) as [util r4]. cbn.
  destruct (is_success r4); reflexivity.
Qed.

Lemma negb_is_success_true r : negb (is_success r) = true -> r <> SUCCESS.
Proof.
  unfold is_success. intros H%negb_true_iff. now apply Z.eqb_neq.
Qed.

Lemma negb_is_success_false r : negb (is_success r) = false -> r = SUCCESS.
Proof.
  intros H%negb_false_iff. now apply is_success_true.
Qed.

(** The shape of every run of [GetMetrics] on a device with a handle. *)
Lemma GetMetrics_shape lib d h t :
  Handle d = Some h ->
  exists m err new,
    GetMetrics lib d t = (Returned (m, err), t ++ new)
    /\ match err with
       | None => new = sample_events h
       | Some msg =>
           exists k ret,
             (k < 4)%nat /\ ret <> SUCCESS
             /\ new = reads_until h k ret
             /\ msg = nvml_ErrorString lib ret
             /\ m = Metrics_zero
       end.
Proof.
  intros Hh. rewrite (GetMetrics_unfold lib d h t Hh).
  destruct (nvml_GetTemperature lib t h TEMPERATURE_GPU) as [temp r1]. cbv beta iota zeta.
  destruct (negb (is_success r1)) eqn:E1.
  { eexists _, _, [_]. split; [reflexivity|].
    exists 0%nat, r1. repeat split; [lia|now apply negb_is_success_true]. }
  apply negb_is_success_false in E1. subst r1.
  destruct (nvml_GetPowerUsage lib _ h) as [power r2]. cbv beta iota zeta.
  destruct (negb (is_success r2)) eqn:E2.
  { eexists _, _, [_; _]. rewrite snoc_snoc. split; [reflexivity|].
    exists 1%nat, r2. repeat split; [lia|now apply negb_is_success_true]. }
  apply negb_is_success_false in E2. subst r2.
  destruct (nvml_GetMemoryInfo lib _ h) as [memory r3]. cbv beta iota zeta.
  destruct (negb (is_success r3)) eqn:E3.
  { eexists _, _, [_; _; _]. rewrite !snoc_app. split; [reflexivity|].
    exists 2%nat, r3. repeat split; [lia|now apply negb_is_success_true]. }
  apply negb_is_success_false in E3. subst r3.
  destruct (nvml_GetUtilizationRates lib _ h) as [util r4]. cbv beta iota zeta.
  destruct (negb (is_success r4)) eqn:E4.
  { eexists _, _, [_; _; _; _]. rewrite !snoc_app. split; [reflexivity|].
    exists 3%nat, r4. repeat split; [lia|now apply negb_is_success_true]. }
  apply negb_is_success_false in E4. subst r4.
  eexists _, _, [_; _; _; _]. rewrite !snoc_app. split; reflexivity.
Qed.

(** X8: on a device with a handle [GetMetrics] always returns.  It
    reads temperature, power, memory and utilization in that order and
    stops at the first read that fails: the reads after it are not
    made, the record is empty, and the error message is the library's
    error string for the status of that read.  When it returns no error
    it has made exactly the four reads, all successful. *)
Theorem GetMetrics_reads_in_order_until_failure lib d h t :
  Handle d = Some h ->
  exists m err new,
    GetMetrics lib d t = (Returned (m, err), t ++ new)
    /\ match err with
       | None => new = sample_events h
       | Some msg =>
           exists k ret,
             (k < 4)%nat /\ ret <> SUCCESS
             /\ new = reads_until h k ret
             /\ msg = nvml_ErrorString lib ret
             /\ m = Metrics_zero
       end.
Proof. exact (GetMetrics_shape lib d h t). Qed.

Lemma GetMetrics_reads_in_order_until_failure_witness :
  exists m err new,
    GetMetrics fading_lib steady_device
      [Println []; Println []] = (Returned (m, err), [Println []; Println []] ++ new)
    /\ match err with
       | None => new = sample_events 7%N
       | Some msg =>
           exists k ret,
             (k < 4)%nat /\ ret <> SUCCESS
             /\ new = reads_until 7%N k ret
             /\ msg = nvml_ErrorString fading_lib ret
             /\ m = Metrics_zero
       end.
Proof.
  exact (GetMetrics_reads_in_order_until_failure fading_lib steady_device 7%N
           [Println []; Println []] eq_refl).
Defined.

Example GetMetrics_fading :
  GetMetrics fading_lib steady_device [Println []; Println []] =
    (Returned (Metrics_zero, Some "GPU is lost"),
     [Println []; Println []] ++ reads_until 7%N 1 15).
Proof. reflexivity. Qed.

(** ** The floats of a sampled record *)

Lemma binary_round_aux_sign s mx ex lx :
  float_sign_is s (binary_round_aux 24 128 s mx ex lx).
Proof.
  unfold binary_round_aux.
  destruct (shr_fexp 24 128 mx ex lx) as [mrs' e'].
  destruct (shr_fexp 24 128 _ e' loc_Exact) as [mrs'' e''].
  destruct (shr_m mrs'') as [|m|m]; [reflexivity| |exact I].
  destruct (e'' <=? 128 - 24); reflexivity.
Qed.

Lemma f32_of_N_sign n : float_sign_is false (f32_of_N n).
Proof.
  unfold f32_of_N, f32_of_Z, binary_normalize.
  destruct n as [|p]; [cbn; reflexivity|]. cbn [Z.of_N].
  unfold binary_round. destruct (shl_align _ _ _) as [mz ez].
  apply binary_round_aux_sign.
Qed.

Lemma f32_div_sign x my ey :
  float_sign_is false x ->
  float_sign_is false (f32_div x (S754_finite false my ey)).
Proof.
  unfold f32_div, SFdiv. destruct x as [sx|sx| |sx mx ex]; cbn [float_sign_is].
  - intros ->. cbn. reflexivity.
  - intros ->. cbn. reflexivity.
  - auto.
  - intros ->.
    destruct (SFdiv_core_binary 24 128 (Z.pos mx) ex (Z.pos my) ey) as [[mz ez] lz].
    apply binary_round_aux_sign.
Qed.

Lemma float_nonneg_intro x :
  is_finite x = true -> float_sign_is false x -> float_nonneg x = true.
Proof. destruct x; cbn; try discriminate; intros _ ->; reflexivity. Qed.

Lemma watts_nonneg n :
  (n < 2 ^ 64)%N -> float_nonneg (f32_div (f32_of_N n) (f32_of_Z 1000)) = true.
Proof.
  intros Hn. apply float_nonneg_intro; [now apply watts_finite|].
  apply (f32_div_sign (f32_of_N n) 16384000 (-14)), f32_of_N_sign.
Qed.

Lemma gigabytes_nonneg n :
  (n < 2 ^ 64)%N -> float_nonneg (f32_div (f32_of_N n) (f32_of_Z (2 ^ 30))) = true.
Proof.
  intros Hn. apply float_nonneg_intro; [now apply gigabytes_finite|].
  apply (f32_div_sign (f32_of_N n) 8388608 7), f32_of_N_sign.
Qed.

Lemma steady_readings_in_range : readings_in_range steady_lib 7%N.
Proof. intros t. repeat split. Qed.

(** The floats of a record sampled from readings that fit their types. *)
Lemma sampled_floats_nonneg lib d h t m t' :
  Handle d = Some h ->
  readings_in_range lib h ->
  GetMetrics lib d t = (Returned (m, None), t') ->
  float_nonneg (Power m) = true
  /\ float_nonneg (MemoryTotal m) = true
  /\ float_nonneg (MemoryUsed m) = true.
Proof.
  intros Hh Hrange. rewrite (GetMetrics_unfold lib d h t Hh).
  destruct (nvml_GetTemperature lib t h TEMPERATURE_GPU) as [temp r1]. cbv beta iota zeta.
  destruct (negb (is_success r1)); [discriminate|].
  destruct (nvml_GetPowerUsage lib _ h) as [power r2] eqn:Hpower. cbv beta iota zeta.
  destruct (negb (is_success r2)); [discriminate|].
  destruct (nvml_GetMemoryInfo lib _ h) as [memory r3] eqn:Hmem. cbv beta iota zeta.
  destruct (negb (is_success r3)); [discriminate|].
  destruct (nvml_GetUtilizationRates lib _ h) as [util r4]. cbv beta iota zeta.
  destruct (negb (is_success r4)); [discriminate|].
  intros [= <- _]. cbn [Power MemoryTotal MemoryUsed].
  match type of Hpower with nvml_GetPowerUsage _ ?t1 _ = _ =>
    pose proof (Hrange t1) as [Hp _]; rewrite Hpower in Hp; cbn in Hp end.
  match type of Hmem with nvml_GetMemoryInfo _ ?t2 _ = _ =>
    pose proof (Hrange t2) as [_ [Htot Hused]]; rewrite Hmem in Htot, Hused;
    cbn in Htot, Hused end.
  repeat split.
  - apply watts_nonneg. apply N.lt_trans with (1 := Hp). reflexivity.
  - now apply gigabytes_nonneg.
  - now apply gigabytes_nonneg.
Qed.

(** X9: when the readings fit their Go types (a [uint32] power, [uint64]
    memory sizes), the power and the two memory sizes of every sampled
    record are numbers, neither infinite nor NaN, and are not
    negative. *)
Theorem GetMetrics_record_nonneg lib d h t m t' :
  Handle d = Some h ->
  readings_in_range lib h ->
  GetMetrics lib d t = (Returned (m, None), t') ->
  float_nonneg (Power m) = true
  /\ float_nonneg (MemoryTotal m) = true
  /\ float_nonneg (MemoryUsed m) = true.
Proof. exact (sampled_floats_nonneg lib d h t m t'). Qed.

Lemma GetMetrics_record_nonneg_witness :
  float_nonneg (Power steady_metrics) = true
  /\ float_nonneg (MemoryTotal steady_metrics) = true
  /\ float_nonneg (MemoryUsed steady_metrics) = true.
Proof.
  exact (GetMetrics_record_nonneg steady_lib steady_device 7%N [] steady_metrics
           (sample_events 7%N) eq_refl steady_readings_in_range eq_refl).
Defined.

(** ** The text of a record, read back *)

Lemma Metrics_String_fields m :
  split_on "," (Metrics_String m) =
    [ fmt_d (Temperature m); fmt_f 2 (Power m); fmt_d (GpuUsage m);
      fmt_f 1 (MemoryTotal m); fmt_f 2 (MemoryUsed m) ].
Proof.
  unfold Metrics_String.
  repeat progress change ("," ++ ?s)%string with (String "," s).
  rewrite split_on_append by apply fmt_d_no_comma.
  rewrite split_on_append by apply fmt_f_no_comma.
  rewrite split_on_append by apply fmt_d_no_comma.
  rewrite split_on_append by apply fmt_f_no_comma.
  now rewrite split_on_no_char by apply fmt_f_no_comma.
Qed.

Lemma parse_uint_fmt_d n : parse_uint (fmt_d n) = Some n.
Proof.
  unfold parse_uint, fmt_d.
  assert (Hnil : N.to_uint n <> Decimal.Nil).
  { destruct n as [|p]; [discriminate|apply DecimalPos.Unsigned.to_uint_nonnil]. }
  rewrite (NilZero.usu _ Hnil). cbn [option_map].
  now rewrite DecimalN.Unsigned.of_to.
Qed.

(** X10: the text of a record can be read back: cut at its commas it
    has five fields, and parsing the first and the third as decimal
    numerals gives the temperature and the GPU usage of the record. *)
Theorem Metrics_String_integers_read_back m :
  read_integers (Metrics_String m) = Some (Temperature m, GpuUsage m).
Proof.
  unfold read_integers. now rewrite Metrics_String_fields, !parse_uint_fmt_d.
Qed.







(** ** One pass of the loop, case by case *)

Lemma loop_body_unfold lib tags d t :
  loop_body lib tags d t =
  match GetMetrics lib d t with
  | (Returned (metrics, Some e), t1) =>
      (Exited 1, t1 ++ [LogFatalf ("Unable to get metrics: " ++ e)%string])
  | (Returned (metrics, None), t1) =>
      match json_Marshal tags metrics with
      | (_, Some e) =>
          (Exited 1, t1 ++ [LogFatalf ("Unable to marshal metrics to JSON: " ++ e)%string])
      | (j, None) => (Returned tt, t1 ++ [Println j; Sleep (Second * 5)])
      end
  | (Exited c, t1) => (Exited c, t1)
  | (Panicked, t1) => (Panicked, t1)
  end.
Proof.
  unfold loop_body, bind.
  destruct (GetMetrics lib d t) as [[[m [e|]]|c|] t1]; try reflexivity.
  destruct (json_Marshal tags m) as [j [e|]]; [reflexivity|].
  unfold fmt_Println, time_Sleep, emit. now rewrite snoc_snoc.
Qed.

(** The three ways a pass can go on a device with a handle. *)
Lemma loop_body_shape lib tags d h t :
  Handle d = Some h ->
  exists out new,
    loop_body lib tags d t = (out, t ++ new)
    /\ ((exists m j,
            GetMetrics lib d t = (Returned (m, None), t ++ sample_events h)
            /\ json_Marshal tags m = (j, None)
            /\ out = Returned tt /\ new = pass_events h j)
        \/ (exists m e,
            GetMetrics lib d t = (Returned (m, None), t ++ sample_events h)
            /\ snd (json_Marshal tags m) = Some e
            /\ out = Exited 1
            /\ new = sample_events h
                     ++ [LogFatalf ("Unable to marshal metrics to JSON: " ++ e)%string])
        \/ (exists k ret,
            (k < 4)%nat /\ ret <> SUCCESS
            /\ out = Exited 1
            /\ new = reads_until h k ret
                     ++ [LogFatalf ("Unable to get metrics: "
                                    ++ nvml_ErrorString lib ret)%string])).
Proof.
  intros Hh. rewrite loop_body_unfold.
  destruct (GetMetrics_shape lib d h t Hh) as [m [err [new [Hrun Hshape]]]].
  rewrite Hrun. destruct err as [msg|].
  - destruct Hshape as [k [ret [Hk [Hret [-> [-> _]]]]]].
    eexists _, _. rewrite <- app_assoc. split; [reflexivity|].
    right. right. exists k, ret. repeat split; assumption.
  - subst new. destruct (json_Marshal tags m) as [j [e|]] eqn:Hj.
    + eexists _, _. rewrite <- app_assoc. split; [reflexivity|].
      right. left. exists m, e. rewrite Hj. repeat split; assumption.
    + eexists _, _. rewrite <- app_assoc. split; [reflexivity|].
      left. exists m, j. repeat split; assumption.
Qed.

Ltac not_in_events :=
  let H := fresh "H" in
  intros H; cbn in H; repeat (destruct H as [H|H]; [discriminate H|]); exact H.

Lemma reads_until_no_Println h k ret j : ~ In (Println j) (reads_until h k ret).
Proof.
  unfold reads_until, sample_events.
  do 4 (destruct k as [|k]; [not_in_events|]).
  destruct k; not_in_events.
Qed.

Lemma sample_events_no_Println h j : ~ In (Println j) (sample_events h).
Proof. unfold sample_events. not_in_events. Qed.

(** What a pass prints, whatever the tags. *)
Lemma loop_body_prints lib tags d h t out new j :
  Handle d = Some h ->
  loop_body lib tags d t = (out, t ++ new) ->
  In (Println j) new ->
  exists m,
    GetMetrics lib d t = (Returned (m, None), t ++ sample_events h)
    /\ json_Marshal tags m = (j, None)
    /\ out = Returned tt
    /\ new = pass_events h j.
Proof.
  intros Hh Hrun Hin.
  destruct (loop_body_shape lib tags d h t Hh) as [out' [new' [Hrun' Hcases]]].
  rewrite Hrun in Hrun'. injection Hrun' as -> Hnew.
  apply app_inv_head in Hnew. subst new'.
  destruct Hcases as [[m [j0 [Hm [Hj [-> ->]]]]]
                     |[[m [e [_ [_ [_ ->]]]]]|[k [ret [_ [_ [_ ->]]]]]]].
  - unfold pass_events in Hin. apply in_app_or in Hin as [Hin|Hin].
    + now apply sample_events_no_Println in Hin.
    + destruct Hin as [[= <-]|[Hin|[]]]; [|discriminate].
      exists m. repeat split; assumption.
  - apply in_app_or in Hin as [Hin|[Hin|[]]]; [|discriminate].
    now apply sample_events_no_Println in Hin.
  - apply in_app_or in Hin as [Hin|[Hin|[]]]; [|discriminate].
    now apply reads_until_no_Println in Hin.
Qed.

(** X12: in [main.go], whatever the library answers, an object that a
    pass of the loop prints has exactly the members [temperature],
    [power], [gpu_usage], [memory_total] and [memory_used], in this
    order, holding the five values of the record just sampled; the
    pass printed nothing else and went on to sleep. *)
Theorem loop_body_main_go_object lib d h t out new j :
  Handle d = Some h ->
  loop_body lib main_go_tags d t = (out, t ++ new) ->
  In (Println j) new ->
  exists m,
    GetMetrics lib d t = (Returned (m, None), t ++ sample_events h)
    /\ j = [ ("temperature", JUint (Temperature m));
             ("power", JFloat32 (Power m));
             ("gpu_usage", JUint (GpuUsage m));
             ("memory_total", JFloat32 (MemoryTotal m));
             ("memory_used", JFloat32 (MemoryUsed m)) ]
    /\ new = sample_events h ++ [Println j; Sleep 5000000000].
Proof.
  intros Hh Hrun Hin.
  destruct (loop_body_prints lib main_go_tags d h t out new j Hh Hrun Hin)
    as [m [Hm [Hj [_ Hnew]]]].
  exists m. split; [assumption|]. split; [|assumption].
  revert Hj. unfold json_Marshal.
  destruct (json_float_error (Power m)); [discriminate|].
  destruct (json_float_error (MemoryTotal m)); [discriminate|].
  destruct (json_float_error (MemoryUsed m)); [discriminate|].
  now intros [= <-].
Qed.

Lemma loop_body_main_go_object_witness :
  exists m,
    GetMetrics steady_lib steady_device [] = (Returned (m, None), [] ++ sample_events 7%N)
    /\ [ ("temperature", JUint 61); ("power", JFloat32 (f32_of_Z 128));
         ("gpu_usage", JUint 93); ("memory_total", JFloat32 (f32_of_Z 16));
         ("memory_used", JFloat32 (f32_of_Z 4)) ]
       = [ ("temperature", JUint (Temperature m));
           ("power", JFloat32 (Power m));
           ("gpu_usage", JUint (GpuUsage m));
           ("memory_total", JFloat32 (MemoryTotal m));
           ("memory_used", JFloat32 (MemoryUsed m)) ]
    /\ pass_events 7%N
         [ ("temperature", JUint 61); ("power", JFloat32 (f32_of_Z 128));
           ("gpu_usage", JUint 93); ("memory_total", JFloat32 (f32_of_Z 16));
           ("memory_used", JFloat32 (f32_of_Z 4)) ]
       = sample_events 7%N
         ++ [ Println [ ("temperature", JUint 61); ("power", JFloat32 (f32_of_Z 128));
                        ("gpu_usage", JUint 93); ("memory_total", JFloat32 (f32_of_Z 16));
                        ("memory_used", JFloat32 (f32_of_Z 4)) ];
              Sleep 5000000000 ].
Proof.
  apply (loop_body_main_go_object steady_lib steady_device 7%N [] (Returned tt)
           (pass_events 7%N
              [ ("temperature", JUint 61); ("power", JFloat32 (f32_of_Z 128));
                ("gpu_usage", JUint 93); ("memory_total", JFloat32 (f32_of_Z 16));
                ("memory_used", JFloat32 (f32_of_Z 4)) ])
           _ eq_refl eq_refl).
  cbn. tauto.
Defined.

(** X13: in the baseline program the same holds with the last member
    named [memory_available]; the value it holds is the used memory of
    the record. *)
Theorem loop_body_baseline_object lib d h t out new j :
  Handle d = Some h ->
  loop_body lib baseline_tags d t = (out, t ++ new) ->
  In (Println j) new ->
  exists m,
    GetMetrics lib d t = (Returned (m, None), t ++ sample_events h)
    /\ j = [ ("temperature", JUint (Temperature m));
             ("power", JFloat32 (Power m));
             ("gpu_usage", JUint (GpuUsage m));
             ("memory_total", JFloat32 (MemoryTotal m));
             ("memory_available", JFloat32 (MemoryUsed m)) ]
    /\ new = sample_events h ++ [Println j; Sleep 5000000000].
Proof.
  intros Hh Hrun Hin.
  destruct (loop_body_prints lib baseline_tags d h t out new j Hh Hrun Hin)
    as [m [Hm [Hj [_ Hnew]]]].
  exists m. split; [assumption|]. split; [|assumption].
  revert Hj. unfold json_Marshal.
  destruct (json_float_error (Power m)); [discriminate|].
  destruct (json_float_error (MemoryTotal m)); [discriminate|].
  destruct (json_float_error (MemoryUsed m)); [discriminate|].
  now intros [= <-].
Qed.

Lemma loop_body_baseline_object_witness :
  exists m,
    GetMetrics steady_lib steady_device [] = (Returned (m, None), [] ++ sample_events 7%N)
    /\ [ ("temperature", JUint 61); ("power", JFloat32 (f32_of_Z 128));
         ("gpu_usage", JUint 93); ("memory_total", JFloat32 (f32_of_Z 16));
         ("memory_available", JFloat32 (f32_of_Z 4)) ]
       = [ ("temperature", JUint (Temperature m));
           ("power", JFloat32 (Power m));
           ("gpu_usage", JUint (GpuUsage m));
           ("memory_total", JFloat32 (MemoryTotal m));
           ("memory_available", JFloat32 (MemoryUsed m)) ]
    /\ pass_events 7%N
         [ ("temperature", JUint 61); ("power", JFloat32 (f32_of_Z 128));
           ("gpu_usage", JUint 93); ("memory_total", JFloat32 (f32_of_Z 16));
           ("memory_available", JFloat32 (f32_of_Z 4)) ]
       = sample_events 7%N
         ++ [ Println [ ("temperature", JUint 61); ("power", JFloat32 (f32_of_Z 128));
                        ("gpu_usage", JUint 93); ("memory_total", JFloat32 (f32_of_Z 16));
                        ("memory_available", JFloat32 (f32_of_Z 4)) ];
              Sleep 5000000000 ].
Proof.
  apply (loop_body_baseline_object steady_lib steady_device 7%N [] (Returned tt)
           (pass_events 7%N
              [ ("temperature", JUint 61); ("power", JFloat32 (f32_of_Z 128));
                ("gpu_usage", JUint 93); ("memory_total", JFloat32 (f32_of_Z 16));
                ("memory_available", JFloat32 (f32_of_Z 4)) ])
           _ eq_refl eq_refl).
  cbn. tauto.
Defined.

Lemma pass_events_no_failed_read h j : existsb failed_read (pass_events h j) = false.
Proof. reflexivity. Qed.

(** X14: a pass in which a read fails ends the process with status 1.
    The reads before the failing one are all it made; the last thing
    it does is log "Unable to get metrics: " followed by the library's
    error string for the status of that read.  Nothing is printed and
    the pass does not sleep. *)
Theorem loop_body_read_failure lib tags d h t out new :
  Handle d = Some h ->
  loop_body lib tags d t = (out, t ++ new) ->
  existsb failed_read new = true ->
  exists k ret,
    (k < 4)%nat /\ ret <> SUCCESS
    /\ out = Exited 1
    /\ new = reads_until h k ret
             ++ [LogFatalf ("Unable to get metrics: " ++ nvml_ErrorString lib ret)%string].
Proof.
  intros Hh Hrun Hfail.
  destruct (loop_body_shape lib tags d h t Hh) as [out' [new' [Hrun' Hcases]]].
  rewrite Hrun in Hrun'. injection Hrun' as -> Hnew.
  apply app_inv_head in Hnew. subst new'.
  destruct Hcases as [[m [j0 [_ [_ [_ ->]]]]]
                     |[[m [e [_ [_ [_ ->]]]]]|[k [ret [Hk [Hret [-> ->]]]]]]].
  - rewrite pass_events_no_failed_read in Hfail. discriminate.
  - cbn in Hfail. discriminate.
  - exists k, ret. repeat split; assumption.
Qed.

Lemma loop_body_read_failure_witness :
  exists k ret,
    (k < 4)%nat /\ ret <> SUCCESS
    /\ fst (loop_body fading_lib main_go_tags steady_device [Println []; Println []])
       = Exited 1
    /\ reads_until 7%N 1 15 ++ [LogFatalf "Unable to get metrics: GPU is lost"]
       = reads_until 7%N k ret
         ++ [LogFatalf ("Unable to get metrics: " ++ nvml_ErrorString fading_lib ret)%string].
Proof.
  exact (loop_body_read_failure fading_lib main_go_tags steady_device 7%N
           [Println []; Println []] (Exited 1)
           (reads_until 7%N 1 15 ++ [LogFatalf "Unable to get metrics: GPU is lost"])
           eq_refl eq_refl eq_refl).
Defined.

(** X15: with readings that fit their Go types a pass has two ways to
    go and no third: it completes (one sample, one printed record, one
    sleep), or a read fails and the process exits with "Unable to get
    metrics".  The exit "Unable to marshal metrics to JSON" is never
    taken. *)
Theorem loop_body_in_range lib tags d h t out new :
  Handle d = Some h ->
  readings_in_range lib h ->
  loop_body lib tags d t = (out, t ++ new) ->
  (out = Returned tt /\ exists j, new = pass_events h j)
  \/ (out = Exited 1
      /\ exists k ret,
           (k < 4)%nat /\ ret <> SUCCESS
           /\ new = reads_until h k ret
                    ++ [LogFatalf ("Unable to get metrics: "
                                   ++ nvml_ErrorString lib ret)%string]).
Proof.
  intros Hh Hrange Hrun.
  destruct (loop_body_shape lib tags d h t Hh) as [out' [new' [Hrun' Hcases]]].
  rewrite Hrun in Hrun'. injection Hrun' as -> Hnew.
  apply app_inv_head in Hnew. subst new'.
  destruct Hcases as [[m [j0 [_ [_ [-> ->]]]]]
                     |[[m [e [Hm [He _]]]]|[k [ret [Hk [Hret [-> ->]]]]]]].
  - left. split; [reflexivity|]. now exists j0.
  - exfalso.
    pose proof (serialization_succeeds_in_range lib tags d h Hh Hrange t m _ Hm) as Hok.
    congruence.
  - right. split; [reflexivity|]. exists k, ret. repeat split; assumption.
Qed.

Lemma loop_body_in_range_witness :
  (fst (loop_body steady_lib main_go_tags steady_device []) = Returned tt
   /\ exists j, snd (loop_body steady_lib main_go_tags steady_device [])
                = pass_events 7%N j)
  \/ (fst (loop_body steady_lib main_go_tags steady_device []) = Exited 1
      /\ exists k ret,
           (k < 4)%nat /\ ret <> SUCCESS
           /\ snd (loop_body steady_lib main_go_tags steady_device [])
              = reads_until 7%N k ret
                ++ [LogFatalf ("Unable to get metrics: "
                               ++ nvml_ErrorString steady_lib ret)%string]).
Proof.
  exact (loop_body_in_range steady_lib main_go_tags steady_device 7%N []
           (fst (loop_body steady_lib main_go_tags steady_device []))
           (snd (loop_body steady_lib main_go_tags steady_device []))
           eq_refl steady_readings_in_range eq_refl).
Defined.

(** ** The loop as a whole *)

Lemma printed_app a b : printed (a ++ b) = (printed a + printed b)%nat.
Proof. unfold printed. now rewrite filter_app, length_app. Qed.

Lemma slept_app a b : slept (a ++ b) = (slept a + slept b)%nat.
Proof. unfold slept. now rewrite filter_app, length_app. Qed.

Lemma reads_until_quiet h k ret :
  printed (reads_until h k ret) = 0%nat /\ slept (reads_until h k ret) = 0%nat.
Proof.
  unfold reads_until, sample_events.
  do 4 (destruct k as [|k]; [split; reflexivity|]).
  destruct k; split; reflexivity.
Qed.

(** X16: whatever the library answers, the first [n] passes print as
    many records as they sleep, one of each per completed pass.
    Either all [n] passes complete, or the process has exited with
    status 1 after fewer than [n] records; the loop has no other way
    out and never panics on a device with a handle. *)
Theorem sampling_loop_counts lib tags d h n t :
  Handle d = Some h ->
  exists out new,
    sampling_loop lib tags n d t = (out, t ++ new)
    /\ printed new = slept new
    /\ ((out = Returned tt /\ printed new = n)
        \/ (out = Exited 1 /\ (printed new < n)%nat)).
Proof.
  intros Hh. revert t. induction n as [|n IH]; intros t.
  - exists (Returned tt), []. rewrite app_nil_r. repeat split. now left.
  - cbn [sampling_loop]. unfold bind.
    destruct (loop_body_shape lib tags d h t Hh) as [out [new [Hrun Hcases]]].
    rewrite Hrun.
    destruct Hcases as [[m [j0 [_ [_ [-> ->]]]]]
                       |[[m [e [_ [_ [-> ->]]]]]|[k [ret [_ [_ [-> ->]]]]]]].
    + destruct (IH (t ++ pass_events h j0)) as [out' [new' [Hrun' [Heq Hout]]]].
      exists out', (pass_events h j0 ++ new').
      rewrite Hrun', <- app_assoc. split; [reflexivity|].
      rewrite printed_app, slept_app.
      change (printed (pass_events h j0)) with 1%nat.
      change (slept (pass_events h j0)) with 1%nat.
      split; [lia|].
      destruct Hout as [[-> Hn]|[-> Hn]]; [left|right]; split; (reflexivity || lia).
    + eexists _, _. split; [reflexivity|].
      rewrite printed_app, slept_app. cbn. split; [reflexivity|].
      right. split; [reflexivity|lia].
    + eexists _, _. split; [reflexivity|].
      rewrite printed_app, slept_app.
      destruct (reads_until_quiet h k ret) as [-> ->]. cbn.
      split; [reflexivity|]. right. split; [reflexivity|lia].
Qed.

Lemma sampling_loop_counts_witness :
  exists out new,
    sampling_loop fading_lib main_go_tags 5 steady_device [] = (out, [] ++ new)
    /\ printed new = slept new
    /\ ((out = Returned tt /\ printed new = 5%nat)
        \/ (out = Exited 1 /\ (printed new < 5)%nat)).
Proof.
  exact (sampling_loop_counts fading_lib main_go_tags steady_device 7%N 5 [] eq_refl).
Defined.

Example sampling_loop_fading :
  fst (sampling_loop fading_lib main_go_tags 5 steady_device []) = Exited 1
  /\ printed (snd (sampling_loop fading_lib main_go_tags 5 steady_device [])) = 2%nat.
Proof. split; reflexivity. Qed.

(** The events of a sample that breaks off are reads. *)
Lemma reads_until_loop_events h k ret : forallb loop_event (reads_until h k ret) = true.
Proof.
  unfold reads_until, sample_events.
  do 4 (destruct k as [|k]; [reflexivity|]).
  destruct k; reflexivity.
Qed.

Lemma sampling_loop_events lib tags d h n t :
  Handle d = Some h ->
  exists out new,
    sampling_loop lib tags n d t = (out, t ++ new)
    /\ out <> Panicked
    /\ forallb loop_event new = true.
Proof.
  intros Hh. revert t. induction n as [|n IH]; intros t.
  - exists (Returned tt), []. rewrite app_nil_r. repeat split. discriminate.
  - cbn [sampling_loop]. unfold bind.
    destruct (loop_body_shape lib tags d h t Hh) as [out [new [Hrun Hcases]]].
    rewrite Hrun.
    destruct Hcases as [[m [j0 [_ [_ [-> ->]]]]]
                       |[[m [e [_ [_ [-> ->]]]]]|[k [ret [_ [_ [-> ->]]]]]]].
    + destruct (IH (t ++ pass_events h j0)) as [out' [new' [Hrun' [Hout Hev]]]].
      exists out', (pass_events h j0 ++ new').
      rewrite Hrun', <- app_assoc. split; [reflexivity|]. split; [assumption|].
      rewrite forallb_app, Hev. reflexivity.
    + eexists _, _. split; [reflexivity|]. split; [discriminate|]. reflexivity.
    + eexists _, _. split; [reflexivity|]. split; [discriminate|].
      rewrite forallb_app, reads_until_loop_events. reflexivity.
Qed.

(** X19: on a device with a handle the loop is made of telemetry reads,
    printed records, sleeps and fatal messages beginning with "Unable
    to " only.  It never asks the library for the device count, a
    handle or an identifier again, it never calls the CloudWatch sink,
    and it never panics. *)
Theorem sampling_loop_only_samples lib tags d h n t :
  Handle d = Some h ->
  exists out new,
    sampling_loop lib tags n d t = (out, t ++ new)
    /\ out <> Panicked
    /\ forallb loop_event new = true.
Proof. exact (sampling_loop_events lib tags d h n t). Qed.

Lemma sampling_loop_only_samples_witness :
  exists out new,
    sampling_loop fading_lib main_go_tags 6 steady_device [] = (out, [] ++ new)
    /\ out <> Panicked
    /\ forallb loop_event new = true.
Proof.
  exact (sampling_loop_only_samples fading_lib main_go_tags steady_device 7%N 6 []
           eq_refl).
Defined.

(** ** [main] *)

Lemma int_sub_zero_one : int_sub 0 1 = -1.
Proof. reflexivity. Qed.

(** The events of [main] between [nvml.Init] and the end.  [P] is any
    property of events that holds of library calls, printed records,
    sleeps and fatal messages beginning with "Unable to "; the fatal
    message of the range check has it too, or the count is never
    negative. *)
Lemma main_body_events (P : event -> bool) lib tags n :
  (forall c r, P (Nvml c r) = true) ->
  (forall j, P (Println j) = true) ->
  (forall ns, P (Sleep ns) = true) ->
  (forall msg, prefix "Unable to " msg = true -> P (LogFatalf msg) = true) ->
  P (LogFatalf "Device index out of range") = true \/ count_not_negative lib ->
  exists out t,
    main_body lib tags n [] = (out, t)
    /\ forallb P t = true
    /\ (handles_not_nil lib -> out <> Panicked).
Proof.
  intros Hnvml Hprint Hsleep Hfatal Hrange.
  assert (Hloop : forall l, forallb loop_event l = true -> forallb P l = true).
  { induction l as [|e l IHl]; [reflexivity|]. cbn [forallb].
    intros [He Hl]%andb_true_iff. rewrite (IHl Hl), andb_true_r.
    destruct e as [c r|msg|j|ns|i err]; cbn in He; auto. discriminate. }
  unfold main_body, bind. rewrite GetDevice_unfold.
  destruct (nvml_DeviceGetCount lib []) as [count r0] eqn:Hcount. cbv beta iota zeta.
  destruct (negb (is_success r0)).
  { eexists _, _. split; [reflexivity|]. split; [|discriminate].
    cbn [app forallb]. rewrite Hnvml, Hfatal by reflexivity. reflexivity. }
  rewrite int_sub_zero_one.
  destruct (Z.leb_spec count (-1)) as [Hneg|Hpos].
  { eexists _, _. split; [reflexivity|]. split; [|discriminate].
    cbn [app forallb]. rewrite Hnvml.
    destruct Hrange as [->|Hnn]; [reflexivity|].
    specialize (Hnn []). rewrite Hcount in Hnn. cbn in Hnn. lia. }
  destruct (nvml_DeviceGetHandleByIndex lib _ 0) as [device r1] eqn:Hdev.
  cbv beta iota zeta.
  destruct (negb (is_success r1)) eqn:Er1.
  { eexists _, _. split; [reflexivity|]. split; [|discriminate].
    cbn [app forallb]. rewrite !Hnvml, Hfatal by reflexivity. reflexivity. }
  destruct device as [h|].
  2:{ eexists _, _. split; [reflexivity|]. split.
      - cbn [app forallb]. now rewrite !Hnvml.
      - intros Hnil. exfalso.
        apply negb_is_success_false in Er1.
        match type of Hdev with nvml_DeviceGetHandleByIndex _ ?t1 _ = _ =>
          apply (Hnil t1 0); rewrite Hdev; [exact Er1|reflexivity] end. }
  destruct (nvml_GetUUID lib _ h) as [uuid r2]. cbv beta iota zeta.
  destruct (negb (is_success r2)).
  { eexists _, _. split; [reflexivity|]. split; [|discriminate].
    cbn [app forallb]. rewrite !Hnvml, Hfatal by reflexivity. reflexivity. }
  match goal with |- context [sampling_loop lib tags n ?d ?t] =>
    destruct (sampling_loop_events lib tags d h n t eq_refl)
      as [out [new [Hrun [Hout Hev]]]] end.
  rewrite Hrun. eexists _, _. split; [reflexivity|]. split; [|intros _; exact Hout].
  rewrite forallb_app. cbn [app forallb]. rewrite !Hnvml, (Hloop new Hev). reflexivity.
Qed.

Lemma existsb_map_Core (Q : main_event -> bool) (P : event -> bool) t :
  (forall e, P e = true -> Q (Core e) = false) ->
  forallb P t = true ->
  existsb Q (map Core t) = false.
Proof.
  intros HPQ. induction t as [|e t IH]; [reflexivity|]. cbn [forallb map existsb].
  intros [He Ht]%andb_true_iff. now rewrite (HPQ e He), (IH Ht).
Qed.

(** The events of [main], for any property [Q] of its events that fails
    on the events [main_body] is made of, on both library life-cycle
    calls, and on the fatal message of a failed shutdown. *)
Lemma main_events (Q : main_event -> bool) (P : event -> bool) host tags n :
  (forall e, P e = true -> Q (Core e) = false) ->
  (forall r, Q (NvmlInit r) = false) ->
  (forall r, Q (NvmlShutdown r) = false) ->
  (forall msg, prefix "Unable to " msg = true -> P (LogFatalf msg) = true) ->
  (exists out t,
      main_body (host_lib host) tags n [] = (out, t) /\ forallb P t = true) ->
  existsb Q (snd (main host tags n)) = false.
Proof.
  intros HPQ Hinit Hshut Hfatal [out [t [Hbody Hev]]].
  unfold main. destruct (negb (is_success (host_Init host))).
  { cbn [snd existsb]. rewrite Hinit.
    match goal with |- context [Core (LogFatalf ?m)] =>
      rewrite (HPQ _ (Hfatal m eq_refl)) end.
    reflexivity. }
  rewrite Hbody.
  pose proof (existsb_map_Core Q P t HPQ Hev) as Hmap.
  destruct out as [[]|c|].
  - cbn [snd existsb]. now rewrite Hinit, Hmap.
  - cbn [snd existsb]. now rewrite Hinit, Hmap.
  - unfold deferred_Shutdown.
    destruct (negb (is_success (host_Shutdown host t)));
      cbn [snd existsb]; rewrite Hinit, existsb_app, Hmap; cbn [existsb orb].
    + rewrite Hshut.
      match goal with |- context [Core (LogFatalf ?m)] =>
        rewrite (HPQ _ (Hfatal m eq_refl)) end.
      reflexivity.
    + now rewrite Hshut.
Qed.

Lemma steady_handles_not_nil : handles_not_nil steady_lib.
Proof.
  intros t index. cbn. destruct (index =? 0); cbn; intros H; discriminate.
Qed.

(** X20: the deferred [nvml.Shutdown] never runs.  With a library that
    never hands out a nil handle, [main] does not panic, so it either
    stays in the loop or leaves through [os.Exit], which skips
    deferred calls: in no run is the library shut down. *)
Theorem main_never_shuts_down host tags n :
  handles_not_nil (host_lib host) ->
  fst (main host tags n) <> Crashed
  /\ existsb is_Shutdown (snd (main host tags n)) = false.
Proof.
  intros Hnil.
  destruct (main_body_events any_event (host_lib host) tags n)
    as [out [t [Hbody [Hev Hout]]]]; try (intros; reflexivity).
  { left. reflexivity. }
  specialize (Hout Hnil).
  unfold main. destruct (negb (is_success (host_Init host))).
  { split; [discriminate|reflexivity]. }
  rewrite Hbody.
  assert (Hmap : existsb is_Shutdown (map Core t) = false).
  { apply (existsb_map_Core is_Shutdown any_event); [reflexivity|assumption]. }
  destruct out as [[]|c|]; [| |contradiction]; cbn [fst snd existsb];
    (split; [discriminate|now rewrite Hmap]).
Qed.

Lemma main_never_shuts_down_witness :
  fst (main fading_host main_go_tags 9) <> Crashed
  /\ existsb is_Shutdown (snd (main fading_host main_go_tags 9)) = false.
Proof.
  exact (main_never_shuts_down fading_host main_go_tags 9 steady_handles_not_nil).
Defined.

(** X21: on a machine where the library reports a device count that is
    not negative but cannot resolve device 0 (a machine without a GPU,
    for one), [main] exits with status 1 and the message "Unable to get
    device: unable to get device at index 0: " followed by the
    library's error string.  It has made two device calls and no
    read. *)
Theorem main_without_device host tags n count device ret :
  host_Init host = SUCCESS ->
  nvml_DeviceGetCount (host_lib host) [] = (count, SUCCESS) ->
  0 <= count ->
  nvml_DeviceGetHandleByIndex (host_lib host) [Nvml DeviceGetCount SUCCESS] 0
    = (device, ret) ->
  ret <> SUCCESS ->
  main host tags n =
    (ProcessExit 1,
     [ NvmlInit SUCCESS;
       Core (Nvml DeviceGetCount SUCCESS);
       Core (Nvml (DeviceGetHandleByIndex 0) ret);
       Core (LogFatalf ("Unable to get device: unable to get device at index 0: "
                        ++ nvml_ErrorString (host_lib host) ret)%string) ]).
Proof.
  intros Hinit Hcount Hnn Hdev Hret.
  unfold main. rewrite Hinit.
  change (negb (is_success SUCCESS)) with false. cbv iota.
  unfold main_body, bind. rewrite GetDevice_unfold, Hcount.
  change (negb (is_success SUCCESS)) with false. cbv beta iota zeta.
  rewrite int_sub_zero_one.
  destruct (Z.leb_spec count (-1)) as [Hneg|_]; [lia|].
  cbn [app]. rewrite Hdev. cbv beta iota zeta.
  rewrite (is_success_false ret Hret). cbn [negb].
  reflexivity.
Qed.

Lemma main_without_device_witness :
  main no_gpu_host baseline_tags 3 =
    (ProcessExit 1,
     [ NvmlInit SUCCESS;
       Core (Nvml DeviceGetCount SUCCESS);
       Core (Nvml (DeviceGetHandleByIndex 0) 2);
       Core (LogFatalf
               "Unable to get device: unable to get device at index 0: Invalid Argument") ]).
Proof.
  apply (main_without_device no_gpu_host baseline_tags 3 0 None 2
           eq_refl eq_refl ltac:(lia) eq_refl).
  discriminate.
Defined.

Lemma unable_is_not_out_of_range msg :
  prefix "Unable to " msg = true ->
  negb (String.eqb msg "Device index out of range") = true.
Proof.
  destruct msg as [|c msg]; [discriminate|]. cbn [prefix].
  destruct (ascii_dec "U" c) as [<-|]; [reflexivity|discriminate].
Qed.

(** X22: as long as the library reports a device count that is not
    negative, the range check of [GetDevice] never stops [main]: since
    [main] asks for device 0, "Device index out of range" is logged in
    no run, however many devices there are, none included. *)
Theorem main_range_check_never_fires host tags n :
  count_not_negative (host_lib host) ->
  existsb is_out_of_range (snd (main host tags n)) = false.
Proof.
  intros Hnn.
  destruct (main_body_events not_out_of_range (host_lib host) tags n)
    as [out [t [Hbody [Hev _]]]]; try (intros; reflexivity).
  { exact unable_is_not_out_of_range. }
  { now right. }
  apply (main_events is_out_of_range not_out_of_range); try (intros; reflexivity).
  - intros [c r|msg|j|ns|i err]; cbn; try reflexivity.
    now intros ->%negb_true_iff.
  - exact unable_is_not_out_of_range.
  - now exists out, t.
Qed.

Lemma main_range_check_never_fires_witness :
  existsb is_out_of_range (snd (main no_gpu_host baseline_tags 2)) = false.
Proof.
  apply (main_range_check_never_fires no_gpu_host baseline_tags 2).
  intros t. cbn. lia.
Defined.

(** X23: [main] in normal operation.  When the library initializes, gives
    a count that is not negative, resolves device 0 and its identifier,
    answers every read, and its readings fit their Go types, then for
    every [n] the run is still in the loop after [n] passes, having
    made the three discovery calls once and then, [n] times over, one
    sample, one printed record and one sleep of five seconds. *)
Theorem main_normal_operation host tags n count h uuid :
  host_Init host = SUCCESS ->
  nvml_DeviceGetCount (host_lib host) [] = (count, SUCCESS) ->
  0 <= count ->
  nvml_DeviceGetHandleByIndex (host_lib host) [Nvml DeviceGetCount SUCCESS] 0
    = (Some h, SUCCESS) ->
  nvml_GetUUID (host_lib host)
    [Nvml DeviceGetCount SUCCESS; Nvml (DeviceGetHandleByIndex 0) SUCCESS] h
    = (uuid, SUCCESS) ->
  reads_succeed (host_lib host) h ->
  readings_in_range (host_lib host) h ->
  exists js,
    List.length js = n
    /\ main host tags n =
         (StillSampling,
          NvmlInit SUCCESS
          :: map Core ([ Nvml DeviceGetCount SUCCESS;
                         Nvml (DeviceGetHandleByIndex 0) SUCCESS;
                         Nvml (GetUUID h) SUCCESS ]
                       ++ flat_map (pass_events h) js)).
Proof.
  intros Hinit Hcount Hnn Hdev Huuid Hok Hrange.
  set (d := {| Index := 0; UUID := uuid; Handle := Some h |}).
  destruct (sampling_loop_passes (host_lib host) tags d h n) with
    (t := [ Nvml DeviceGetCount SUCCESS; Nvml (DeviceGetHandleByIndex 0) SUCCESS;
            Nvml (GetUUID h) SUCCESS ]) as [js [Hlen Hloop]].
  { intros t0. apply loop_body_normal; [reflexivity|assumption|].
    now apply (serialization_succeeds_in_range (host_lib host) tags d h). }
  exists js. split; [assumption|].
  unfold main. rewrite Hinit.
  change (negb (is_success SUCCESS)) with false. cbv iota.
  unfold main_body, bind. rewrite GetDevice_unfold, Hcount.
  change (negb (is_success SUCCESS)) with false. cbv beta iota zeta.
  rewrite int_sub_zero_one.
  destruct (Z.leb_spec count (-1)) as [Hneg|_]; [lia|].
  cbn [app]. rewrite Hdev.
  change (negb (is_success SUCCESS)) with false. cbv beta iota zeta.
  cbn [app]. rewrite Huuid.
  change (negb (is_success SUCCESS)) with false. cbv beta iota zeta.
  cbn [app]. fold d. now rewrite Hloop.
Qed.

Lemma main_normal_operation_witness :
  exists js,
    List.length js = 2%nat
    /\ main steady_host main_go_tags 2 =
         (StillSampling,
          NvmlInit SUCCESS
          :: map Core ([ Nvml DeviceGetCount SUCCESS;
                         Nvml (DeviceGetHandleByIndex 0) SUCCESS;
                         Nvml (GetUUID 7%N) SUCCESS ]
                       ++ flat_map (pass_events 7%N) js)).
Proof.
  apply (main_normal_operation steady_host main_go_tags 2 1 7%N "GPU-0"
           eq_refl eq_refl ltac:(lia) eq_refl eq_refl).
  - exact steady_reads_succeed.
  - exact steady_readings_in_range.
Defined.

(** X24: [main] of [main.go] never publishes.  Whatever the AWS
    configuration, the library and the number of passes, no run holds
    a [PutMetricData] call: the records go to standard output only. *)
Theorem main_go_never_publishes config_err host n :
  existsb is_published (snd (main_go config_err host n)) = false.
Proof.
  unfold main_go. destruct config_err as [e|]; [reflexivity|].
  destruct (main_body_events not_published (host_lib host) main_go_tags n)
    as [out [t [Hbody [Hev _]]]]; try (intros; reflexivity).
  { left. reflexivity. }
  pose proof (main_events is_published not_published host main_go_tags n) as Hmain.
  destruct (main host main_go_tags n) as [o es]. cbn [snd existsb] in *.
  apply Hmain; try (intros; reflexivity).
  - intros [c r|msg|j|ns|i err]; cbn; try reflexivity. discriminate.
  - now exists out, t.
Qed.

(** ** The CloudWatch sink: widening to [float64] *)

Lemma fexp64 e : fexp 53 1024 e = Z.max (e - 53) (-1074).
Proof. reflexivity. Qed.

Lemma Zpos_iter_xO m k : Zpos (Pos.iter xO m k) = Zpos m * 2 ^ Zpos k.
Proof.
  induction k as [|k IH] using Pos.peano_ind.
  - cbn [Pos.iter]. rewrite (Pos2Z.inj_xO m). change (2 ^ 1) with 2. lia.
  - rewrite Pos.iter_succ, (Pos2Z.inj_xO (Pos.iter xO m k)), IH.
    rewrite Pos2Z.inj_succ, Z.pow_succ_r by lia. ring.
Qed.

Lemma shr_fexp64_exact mz ez :
  fexp 53 1024 (Zdigits2 (Zpos mz) + ez) <= ez ->
  shr_fexp 53 1024 (Zpos mz) ez loc_Exact
  = ({| shr_m := Zpos mz; shr_r := false; shr_s := false |}, ez).
Proof.
  intros Hle. unfold shr_fexp, shr. cbn [shr_record_of_loc].
  destruct (fexp 53 1024 (Zdigits2 (Z.pos mz) + ez) - ez) as [|p|p] eqn:E;
    [reflexivity|lia|reflexivity].
Qed.

Lemma binary_round_aux64_exact s mz ez :
  fexp 53 1024 (Zdigits2 (Zpos mz) + ez) <= ez ->
  ez <= 971 ->
  binary_round_aux 53 1024 s (Zpos mz) ez loc_Exact = S754_finite s mz ez.
Proof.
  intros Hle Hez. unfold binary_round_aux.
  rewrite (shr_fexp64_exact mz ez Hle). cbn [shr_m loc_of_shr_record round_nearest_even].
  rewrite (shr_fexp64_exact mz ez Hle). cbn [shr_m].
  destruct (Z.leb_spec ez (1024 - 53)); [reflexivity|lia].
Qed.

Lemma binary_round64_exact s m e :
  Zdigits2 (Zpos m) <= 53 -> -1074 <= e -> Zdigits2 (Zpos m) + e <= 1024 ->
  float_same_value (S754_finite s m e) (binary_round 53 1024 s m e) = true.
Proof.
  intros Hd He Hde. unfold binary_round, shl_align.
  rewrite fexp64. cbn [Zdigits2] in *.
  destruct (Z.max (Z.pos (digits2_pos m) + e - 53) (-1074) - e) as [|k|k] eqn:Ek.
  - rewrite binary_round_aux64_exact; [| rewrite fexp64; cbn [Zdigits2]; lia | lia].
    cbn [float_same_value]. rewrite Bool.eqb_reflx, Z.min_id, Z.sub_diag.
    now rewrite Z.eqb_refl.
  - lia.
  - rewrite binary_round_aux64_exact.
    + cbn [float_same_value]. rewrite Bool.eqb_reflx. cbn [andb].
      apply Z.eqb_eq. rewrite Zpos_iter_xO.
      rewrite Z.min_r by lia. rewrite Z.sub_diag.
      replace (e - Z.max (Z.pos (digits2_pos m) + e - 53) (-1074)) with (Zpos k) by lia.
      change (2 ^ 0) with 1. lia.
    + rewrite fexp64. cbn [Zdigits2]. rewrite digits2_pos_iter_xO. lia.
    + lia.
Qed.

Lemma binary_round_aux_shaped s mx ex lx :
  0 <= mx -> float32_shaped (binary_round_aux 24 128 s mx ex lx).
Proof.
  intros Hmx. unfold binary_round_aux.
  pose proof (shr_fexp_spec mx ex lx Hmx) as [Hm1 He1].
  destruct (shr_fexp 24 128 mx ex lx) as [mrs' e']. cbn [fst snd] in Hm1, He1.
  set (m1 := shr_m mrs') in *.
  set (m1' := round_nearest_even m1 (loc_of_shr_record mrs')).
  pose proof (round_nearest_even_bounds m1 (loc_of_shr_record mrs')) as Hr.
  fold m1' in Hr.
  assert (Hm1nn : 0 <= m1).
  { rewrite Hm1. apply Z.div_pos; [assumption|apply pow2_pos_nonneg; lia]. }
  pose proof (shr_fexp_spec m1' e' loc_Exact ltac:(lia)) as [Hm2 He2].
  destruct (shr_fexp 24 128 m1' e' loc_Exact) as [mrs'' e'']. cbn [fst snd] in Hm2, He2.
  set (n2 := Z.max (fexp 24 128 (Zdigits2 m1' + e') - e') 0) in *.
  assert (Hn2 : 0 <= n2) by (unfold n2; lia).
  pose proof (Zdigits2_shift m1' n2 ltac:(lia) Hn2) as Hs2. rewrite <- Hm2 in Hs2.
  pose proof (Zdigits2_nonneg m1') as Hd1'.
  unfold n2 in *. rewrite !fexp32 in *.
  destruct (shr_m mrs'') as [|m|m] eqn:Em; [exact I| |exact I].
  destruct (e'' <=? 128 - 24); [|exact I].
  cbn [float32_shaped]. cbn [Zdigits2] in *. lia.
Qed.

Lemma f32_of_N_shaped n : float32_shaped (f32_of_N n).
Proof.
  unfold f32_of_N, f32_of_Z, binary_normalize.
  destruct n as [|p]; [exact I|]. cbn [Z.of_N].
  unfold binary_round. destruct (shl_align _ _ _) as [mz ez].
  apply binary_round_aux_shaped. lia.
Qed.

Lemma f32_div_shaped x y : float32_shaped (f32_div x y).
Proof.
  unfold f32_div, SFdiv.
  destruct x as [sx|sx| |sx mx ex], y as [sy|sy| |sy my ey]; try exact I.
  unfold SFdiv_core_binary.
  destruct (Z.div_eucl _ (Z.pos my)) as [q r] eqn:Ediv.
  apply binary_round_aux_shaped.
  assert (Hq : q = fst (Z.div_eucl
     match ex - ey - Z.min (fexp 24 128 (Zdigits2 (Z.pos mx) + ex - (Zdigits2 (Z.pos my) + ey))) (ex - ey) with
     | 0 => Z.pos mx
     | Z.pos _ => Z.shiftl (Z.pos mx) (ex - ey - Z.min (fexp 24 128 (Zdigits2 (Z.pos mx) + ex - (Zdigits2 (Z.pos my) + ey))) (ex - ey))
     | Z.neg _ => 0
     end (Z.pos my))) by now rewrite Ediv.
  rewrite Hq. change (fst (Z.div_eucl ?a ?b)) with (a / b).
  apply Z.div_pos; [|lia].
  destruct (ex - ey - _) as [|p|p] eqn:Es; try lia.
  apply Z.shiftl_nonneg. lia.
Qed.

Lemma f64_of_f32_exact x :
  float32_shaped x -> float_bound 127 x ->
  float_same_value x (f64_of_f32 x) = true.
Proof.
  destruct x as [s|s| |s m e]; cbn [float32_shaped float_bound]; try contradiction.
  - intros _ _. cbn. now destruct s.
  - intros [Hd He] Hb. unfold f64_of_f32, binary_normalize.
    destruct s; cbn [cond_Zopp Z.opp]; apply binary_round64_exact; lia.
Qed.

Lemma f64_of_N_exact p :
  (Npos p < 2 ^ 53)%N ->
  float_same_value (S754_finite false p 0) (f64_of_N (Npos p)) = true.
Proof.
  intros Hp. unfold f64_of_N, f64_of_Z, binary_normalize. cbn [Z.of_N].
  assert (Hd : Zdigits2 (Zpos p) <= 53).
  { apply Zdigits2_le; [lia|lia|].
    apply N2Z.inj_lt in Hp. rewrite N2Z.inj_pow in Hp. exact Hp. }
  apply binary_round64_exact; lia.
Qed.

Lemma integer_widen_exact n :
  (n < 2 ^ 53)%N -> float_same_value (integer_as_float n) (f64_of_N n) = true.
Proof.
  destruct n as [|p]; [reflexivity|]. apply f64_of_N_exact.
Qed.

Lemma watts_widen_exact n :
  (n < 2 ^ 64)%N ->
  let w := f32_div (f32_of_N n) (f32_of_Z 1000) in
  float_same_value w (f64_of_f32 w) = true.
Proof.
  intros Hn w. apply f64_of_f32_exact; [apply f32_div_shaped|].
  apply (f32_div_finite (f32_of_N n) false 16384000 (-14)).
  - apply (float_bound_weaken 65); [lia|]. now apply (f32_of_N_bound n 64).
  - cbn. lia.
Qed.

Lemma gigabytes_widen_exact n :
  (n < 2 ^ 64)%N ->
  let g := f32_div (f32_of_N n) (f32_of_Z (2 ^ 30)) in
  float_same_value g (f64_of_f32 g) = true.
Proof.
  intros Hn g. apply f64_of_f32_exact; [apply f32_div_shaped|].
  apply (f32_div_finite (f32_of_N n) false 8388608 7).
  - apply (float_bound_weaken 65); [lia|]. now apply (f32_of_N_bound n 64).
  - cbn. lia.
Qed.

Lemma steady_integers_in_range : integers_in_range steady_lib 7%N.
Proof. intros t. split; reflexivity. Qed.

(** X25: the numbers handed to CloudWatch are the numbers of the record.
    For a record sampled from readings that fit their Go types, the
    four values of the batch (GPU usage, used memory, temperature,
    power, in this order) stand for exactly the same numbers as the
    fields of the record: widening to [float64] rounds none of them. *)
Theorem PublishCloudwatchMetrics_values_exact
    lib d h t m t' client instanceID instanceType resolution namespace t0 :
  Handle d = Some h ->
  readings_in_range lib h ->
  integers_in_range lib h ->
  GetMetrics lib d t = (Returned (m, None), t') ->
  exists input err out,
    PublishCloudwatchMetrics m client instanceID instanceType resolution namespace t0
      = (Returned out, t0 ++ [PutMetricData input err])
    /\ Forall2 (fun x datum => float_same_value x (DatumValue datum) = true)
         [ integer_as_float (GpuUsage m); MemoryUsed m;
           integer_as_float (Temperature m); Power m ]
         (MetricData input).
Proof.
  intros Hh Hrange Hints. rewrite (GetMetrics_unfold lib d h t Hh).
  destruct (nvml_GetTemperature lib t h TEMPERATURE_GPU) as [temp r1] eqn:Htemp.
  cbv beta iota zeta.
  destruct (negb (is_success r1)); [discriminate|].
  destruct (nvml_GetPowerUsage lib _ h) as [power r2] eqn:Hpower. cbv beta iota zeta.
  destruct (negb (is_success r2)); [discriminate|].
  destruct (nvml_GetMemoryInfo lib _ h) as [memory r3] eqn:Hmem. cbv beta iota zeta.
  destruct (negb (is_success r3)); [discriminate|].
  destruct (nvml_GetUtilizationRates lib _ h) as [util r4] eqn:Hutil. cbv beta iota zeta.
  destruct (negb (is_success r4)); [discriminate|].
  intros [= <- _].
  pose proof (Hints t) as [Ht _]. rewrite Htemp in Ht. cbn in Ht.
  match type of Hutil with nvml_GetUtilizationRates _ ?t3 _ = _ =>
    pose proof (Hints t3) as [_ Hu]; rewrite Hutil in Hu; cbn in Hu end.
  match type of Hpower with nvml_GetPowerUsage _ ?t1 _ = _ =>
    pose proof (Hrange t1) as [Hp _]; rewrite Hpower in Hp; cbn in Hp end.
  match type of Hmem with nvml_GetMemoryInfo _ ?t2 _ = _ =>
    pose proof (Hrange t2) as [_ [_ Hused]]; rewrite Hmem in Hused; cbn in Hused end.
  unfold PublishCloudwatchMetrics, call_PutMetricData, bind, pure.
  cbn [Temperature Power GpuUsage MemoryTotal MemoryUsed].
  match goal with
  | |- context [client t0 ?i] => destruct (client t0 i) as [e|] eqn:Herr
  end.
  all: eexists _, _, _; split; [reflexivity|]; cbn [MetricData];
    repeat constructor; cbn [DatumValue].
  all: try (apply integer_widen_exact; eapply N.lt_trans; [eassumption|reflexivity]).
  all: try (apply gigabytes_widen_exact; assumption).
  all: apply watts_widen_exact; eapply N.lt_trans; [eassumption|reflexivity].
Qed.

Lemma PublishCloudwatchMetrics_values_exact_witness :
  exists input err out,
    PublishCloudwatchMetrics steady_metrics (fun _ _ => None)
      "i-0abc" "g4dn.xlarge" 60 "GPU" []
      = (Returned out, [] ++ [PutMetricData input err])
    /\ Forall2 (fun x datum => float_same_value x (DatumValue datum) = true)
         [ integer_as_float (GpuUsage steady_metrics); MemoryUsed steady_metrics;
           integer_as_float (Temperature steady_metrics); Power steady_metrics ]
         (MetricData input).
Proof.
  exact (PublishCloudwatchMetrics_values_exact steady_lib steady_device 7%N []
           steady_metrics (sample_events 7%N) (fun _ _ => None)
           "i-0abc" "g4dn.xlarge" 60 "GPU" []
           eq_refl steady_readings_in_range steady_integers_in_range eq_refl).
Defined.
